(** * ElevenLabs Zoom Bridge: session registry, call orchestration, media bridge

    A shallow embedding of [elevenlabs-bridge/server.js].  The JavaScript
    values the handlers inspect are the values a decoded JSON body or frame
    can hold; handlers are written in a small state / trace / exception
    monad so that each definition reads like the handler it embeds. *)

From Stdlib Require Import String Ascii List ZArith NArith Bool Lia.
From Stdlib Require Import DecimalString.
Import ListNotations.

Local Open Scope string_scope.
Set Warnings "-register-all".

(* ================================================================= *)
(** ** JavaScript values *)

(** The values reachable from [JSON.parse] and from a parsed request body,
    plus [undefined].  Numbers are the integers that JavaScript holds
    exactly and prints digit by digit (magnitude below 2^53); objects keep
    their own properties in enumeration order. *)
Inductive value : Type :=
| VUndefined
| VNull
| VBool (b : bool)
| VNum (n : Z)
| VStr (s : string)
| VArr (items : list value)
| VObj (props : list (string * value)).

(** What a [throw] carries: the fields the handlers read from a caught
    error ([error.message], [error.code], [error.moreInfo]). *)
Record js_error : Type := mkError {
  err_name : string;
  err_message : string;
  err_code : value;
  err_moreInfo : value
}.

Definition TypeError (msg : string) : js_error :=
  mkError "TypeError" msg VUndefined VUndefined.

Definition SyntaxError (msg : string) : js_error :=
  mkError "SyntaxError" msg VUndefined VUndefined.

Inductive outcome (A : Type) : Type :=
| Ok (a : A)
| Throw (e : js_error).
Arguments Ok {A} a.
Arguments Throw {A} e.

(** ToBoolean *)
Definition truthy (v : value) : bool :=
  match v with
  | VUndefined | VNull => false
  | VBool b => b
  | VNum n => negb (n =? 0)%Z
  | VStr s => negb (s =? "")
  | VArr _ | VObj _ => true
  end.

Fixpoint lookup {A : Type} (k : string) (kvs : list (string * A)) : option A :=
  match kvs with
  | [] => None
  | (k', v) :: rest => if k' =? k then Some v else lookup k rest
  end.

(** [v.k] for the property names the program reads ([event], [media],
    [payload], [start], [streamSid], [type], [audio_event], ...): none of
    them is an index, [length] or a prototype member, so only objects
    answer with something else than [undefined]. *)
Definition get (v : value) (k : string) : outcome value :=
  match v with
  | VUndefined =>
      Throw (TypeError ("Cannot read properties of undefined (reading '" ++ k ++ "')"))
  | VNull =>
      Throw (TypeError ("Cannot read properties of null (reading '" ++ k ++ "')"))
  | VObj props => Ok (match lookup k props with Some x => x | None => VUndefined end)
  | _ => Ok VUndefined
  end.

(** [v?.k] *)
Definition get_opt (v : value) (k : string) : value :=
  match v with
  | VObj props => match lookup k props with Some x => x | None => VUndefined end
  | _ => VUndefined
  end.

(** [a || b] *)
Definition js_or (a b : value) : value := if truthy a then a else b.

Definition string_of_Z (n : Z) : string := NilZero.string_of_int (Z.to_int n).

Fixpoint join (sep : string) (l : list string) : string :=
  match l with
  | [] => ""
  | [x] => x
  | x :: rest => x ++ sep ++ join sep rest
  end.

(** ToString, as a template literal applies it. *)
Fixpoint to_string (v : value) : string :=
  match v with
  | VUndefined => "undefined"
  | VNull => "null"
  | VBool true => "true"
  | VBool false => "false"
  | VNum n => string_of_Z n
  | VStr s => s
  | VArr items =>
      join "," (map (fun x => match x with
                              | VUndefined | VNull => ""
                              | _ => to_string x
                              end) items)
  | VObj _ => "[object Object]"
  end.

(** [s.startsWith(p)]: a method of strings only. *)
Definition startsWith (v : value) (p : string) : outcome bool :=
  match v with
  | VStr s => Ok (prefix p s)
  | VUndefined | VNull =>
      Throw (TypeError "Cannot read properties of undefined (reading 'startsWith')")
  | _ => Throw (TypeError "serverUrl.startsWith is not a function")
  end.

Definition strict_eq_str (v : value) (s : string) : bool :=
  match v with
  | VStr s' => s' =? s
  | _ => false
  end.

(* ================================================================= *)
(** ** JSON.stringify *)

Definition dquote : string := String "034"%char "".
Definition backslash : string := String "092"%char "".

Definition hex_digit (n : N) : ascii :=
  if (n <? 10)%N then ascii_of_N (48 + n) else ascii_of_N (87 + n).

(** QuoteJSONString on one code unit below 0x80; bytes of a multi-byte
    UTF-8 sequence pass through. *)
Definition quote_char (c : ascii) : string :=
  let n := N_of_ascii c in
  if (n =? 34)%N then backslash ++ dquote
  else if (n =? 92)%N then backslash ++ backslash
  else if (n =? 8)%N then backslash ++ "b"
  else if (n =? 12)%N then backslash ++ "f"
  else if (n =? 10)%N then backslash ++ "n"
  else if (n =? 13)%N then backslash ++ "r"
  else if (n =? 9)%N then backslash ++ "t"
  else if (n <? 32)%N then
    backslash ++ "u00" ++ String (hex_digit (n / 16)) (String (hex_digit (n mod 16)) "")
  else String c "".

Fixpoint quote_body (s : string) : string :=
  match s with
  | EmptyString => ""
  | String c rest => quote_char c ++ quote_body rest
  end.

Definition quote (s : string) : string := dquote ++ quote_body s ++ dquote.

(** SerializeJSONProperty: [None] is the [undefined] result, which drops a
    property from an object and prints as [null] inside an array. *)
Fixpoint stringify (v : value) : option string :=
  match v with
  | VUndefined => None
  | VNull => Some "null"
  | VBool true => Some "true"
  | VBool false => Some "false"
  | VNum n => Some (string_of_Z n)
  | VStr s => Some (quote s)
  | VArr items =>
      Some ("[" ++ join "," (map (fun x => match stringify x with
                                           | Some t => t
                                           | None => "null"
                                           end) items) ++ "]")
  | VObj props =>
      Some ("{" ++ join ","
              ((fix members (l : list (string * value)) : list string :=
                  match l with
                  | [] => []
                  | (k, x) :: rest =>
                      match stringify x with
                      | Some t => (quote k ++ ":" ++ t) :: members rest
                      | None => members rest
                      end
                  end) props) ++ "}")
  end.

(** [JSON.stringify] of an object literal, which is always a string. *)
Definition JSON_stringify (props : list (string * value)) : string :=
  match stringify (VObj props) with
  | Some t => t
  | None => "undefined"
  end.

(** Writes a JSON text with apostrophes for the quotation marks. *)
Fixpoint js (s : string) : string :=
  match s with
  | EmptyString => ""
  | String c rest =>
      String (if (N_of_ascii c =? 39)%N then "034"%char else c) (js rest)
  end.

(* ================================================================= *)
(** ** A JSON decoder

    [JSON.parse] is the engine's; the handlers below take the decoder as a
    parameter and every statement about them holds for any decoder.  This
    one reads the texts of the examples: JSON with integer numbers and with
    escapes below U+0080, properties in the order of the text. *)

Definition is_ws (c : ascii) : bool :=
  let n := N_of_ascii c in
  ((n =? 32) || (n =? 9) || (n =? 10) || (n =? 13))%N.

Fixpoint skip_ws (s : string) : string :=
  match s with
  | String c r => if is_ws c then skip_ws r else s
  | EmptyString => s
  end.

Fixpoint drop (n : nat) (s : string) : string :=
  match n, s with
  | S m, String _ r => drop m r
  | _, _ => s
  end.

Definition expect (lit : string) (s : string) : option string :=
  if prefix lit s then Some (drop (String.length lit) s) else None.

Definition hex_value (c : ascii) : option N :=
  let n := N_of_ascii c in
  if ((48 <=? n) && (n <=? 57))%N then Some (n - 48)%N
  else if ((97 <=? n) && (n <=? 102))%N then Some (n - 87)%N
  else if ((65 <=? n) && (n <=? 70))%N then Some (n - 55)%N
  else None.

Definition unescape (e : ascii) : option ascii :=
  let n := N_of_ascii e in
  if (n =? 34)%N then Some "034"%char
  else if (n =? 92)%N then Some "092"%char
  else if (n =? 47)%N then Some "/"%char
  else if (n =? 98)%N then Some "008"%char
  else if (n =? 102)%N then Some "012"%char
  else if (n =? 110)%N then Some "010"%char
  else if (n =? 114)%N then Some "013"%char
  else if (n =? 116)%N then Some "009"%char
  else None.

Definition cons_char (c : ascii) (r : option (string * string)) : option (string * string) :=
  match r with
  | Some (body, rest) => Some (String c body, rest)
  | None => None
  end.

(** The characters after an opening quotation mark, up to the closing one. *)
Fixpoint parse_string_body (s : string) : option (string * string) :=
  match s with
  | EmptyString => None
  | String c r =>
      let n := N_of_ascii c in
      if (n =? 34)%N then Some ("", r)
      else if (n =? 92)%N then
        match r with
        | String "u" (String h1 (String h2 (String h3 (String h4 r')))) =>
            match hex_value h1, hex_value h2, hex_value h3, hex_value h4 with
            | Some 0%N, Some 0%N, Some a, Some b =>
                if (a <? 8)%N then cons_char (ascii_of_N (16 * a + b)) (parse_string_body r')
                else None
            | _, _, _, _ => None
            end
        | String e r' =>
            match unescape e with
            | Some ch => cons_char ch (parse_string_body r')
            | None => None
            end
        | EmptyString => None
        end
      else if (n <? 32)%N then None
      else cons_char c (parse_string_body r)
  end.

Definition is_digit (c : ascii) : bool :=
  let n := N_of_ascii c in ((48 <=? n) && (n <=? 57))%N.

Fixpoint parse_digits (acc : Z) (s : string) : Z * string :=
  match s with
  | String c r =>
      if is_digit c then parse_digits (10 * acc + Z.of_N (N_of_ascii c - 48)) r
      else (acc, s)
  | EmptyString => (acc, s)
  end.

Definition no_fraction (s : string) : bool :=
  match s with
  | String c _ =>
      let n := N_of_ascii c in negb ((n =? 46) || (n =? 101) || (n =? 69))%N
  | EmptyString => true
  end.

(** [-]? ( 0 | [1-9][0-9]* ), not followed by a fraction or an exponent. *)
Definition parse_int (s : string) : option (Z * string) :=
  let (neg, s1) := match s with
                   | String "-" r => (true, r)
                   | _ => (false, s)
                   end in
  match s1 with
  | String c r =>
      if is_digit c then
        let (n, rest) := if (N_of_ascii c =? 48)%N then (0%Z, r) else parse_digits 0 s1 in
        match rest with
        | String d _ => if is_digit d then None
                        else if no_fraction rest then Some (if neg then (- n)%Z else n, rest)
                        else None
        | EmptyString => Some (if neg then (- n)%Z else n, rest)
        end
      else None
  | EmptyString => None
  end.

(** [obj[k] = v] while the object is built: a repeated name keeps its place
    and takes the later value. *)
Fixpoint obj_set (k : string) (v : value) (props : list (string * value))
  : list (string * value) :=
  match props with
  | [] => [(k, v)]
  | (k', v') :: rest =>
      if k' =? k then (k, v) :: rest else (k', v') :: obj_set k v rest
  end.

Section Sequences.
Variable parse_value : string -> option (value * string).

(** Elements after [[], up to the closing bracket. *)
Fixpoint parse_elements (fuel : nat) (acc : list value) (s : string)
  : option (value * string) :=
  match fuel with
  | O => None
  | S f =>
      match parse_value s with
      | Some (v, r) =>
          match skip_ws r with
          | String "," r' => parse_elements f (acc ++ [v]) r'
          | String "]" r' => Some (VArr (acc ++ [v]), r')
          | _ => None
          end
      | None => None
      end
  end.

(** Members after [{], up to the closing brace. *)
Fixpoint parse_members (fuel : nat) (acc : list (string * value)) (s : string)
  : option (value * string) :=
  match fuel with
  | O => None
  | S f =>
      match skip_ws s with
      | String "034" r =>
          match parse_string_body r with
          | Some (k, r1) =>
              match skip_ws r1 with
              | String ":" r2 =>
                  match parse_value r2 with
                  | Some (v, r3) =>
                      match skip_ws r3 with
                      | String "," r4 => parse_members f (obj_set k v acc) r4
                      | String "}" r4 => Some (VObj (obj_set k v acc), r4)
                      | _ => None
                      end
                  | None => None
                  end
              | _ => None
              end
          | None => None
          end
      | _ => None
      end
  end.
End Sequences.

Fixpoint parse_value (fuel : nat) (s : string) : option (value * string) :=
  match fuel with
  | O => None
  | S f =>
      match skip_ws s with
      | EmptyString => None
      | String c r =>
          let n := N_of_ascii c in
          if (n =? 34)%N then
            match parse_string_body r with
            | Some (t, rest) => Some (VStr t, rest)
            | None => None
            end
          else if (n =? 123)%N then
            match skip_ws r with
            | String "}" r' => Some (VObj [], r')
            | _ => parse_members (parse_value f) (String.length r) [] r
            end
          else if (n =? 91)%N then
            match skip_ws r with
            | String "]" r' => Some (VArr [], r')
            | _ => parse_elements (parse_value f) (String.length r) [] r
            end
          else if (n =? 116)%N then
            match expect "true" (String c r) with
            | Some rest => Some (VBool true, rest)
            | None => None
            end
          else if (n =? 102)%N then
            match expect "false" (String c r) with
            | Some rest => Some (VBool false, rest)
            | None => None
            end
          else if (n =? 110)%N then
            match expect "null" (String c r) with
            | Some rest => Some (VNull, rest)
            | None => None
            end
          else
            match parse_int (String c r) with
            | Some (z, rest) => Some (VNum z, rest)
            | None => None
            end
      end
  end.

Definition parse_json (text : string) : option value :=
  match parse_value (S (String.length text)) text with
  | Some (v, rest) =>
      match skip_ws rest with
      | EmptyString => Some v
      | _ => None
      end
  | None => None
  end.

(* ================================================================= *)
(** ** Handlers: state, trace and exceptions *)

Inductive level : Type := Info | Error.

(** What a handler does to the outside: log lines and the calls it makes
    on the two sockets of a bridge.  [TwilioSend t] is the call
    [connection.socket.send(t)], [AgentSend t] is [elevenLabsWs.send(t)],
    and likewise for [close()]. *)
Inductive effect : Type :=
| Log (lvl : level) (msg : string)
| ConsoleLog (msg : string)
| AgentConnect (url : string) (api_key : value)
| AgentSend (text : string)
| AgentClose
| TwilioSend (text : string)
| TwilioClose.

(** A handler body over a store [S]: it ends normally or throws, and what
    it wrote and emitted before a throw stays. *)
Definition M (S A : Type) : Type := S -> outcome A * S * list effect.

Definition ret {S A : Type} (a : A) : M S A := fun s => (Ok a, s, []).

Definition bind {S A B : Type} (m : M S A) (k : A -> M S B) : M S B :=
  fun s =>
    match m s with
    | (Ok a, s1, t1) => let '(r, s2, t2) := k a s1 in (r, s2, (t1 ++ t2)%list)
    | (Throw e, s1, t1) => (Throw e, s1, t1)
    end.

Definition try_catch {S A : Type} (m : M S A) (h : js_error -> M S A) : M S A :=
  fun s =>
    match m s with
    | (Ok a, s1, t1) => (Ok a, s1, t1)
    | (Throw e, s1, t1) => let '(r, s2, t2) := h e s1 in (r, s2, (t1 ++ t2)%list)
    end.

Definition lift {S A : Type} (o : outcome A) : M S A := fun s => (o, s, []).
Definition get_state {S : Type} : M S S := fun s => (Ok s, s, []).
Definition modify {S : Type} (f : S -> S) : M S unit := fun s => (Ok tt, f s, []).
Definition emit {S : Type} (e : effect) : M S unit := fun s => (Ok tt, s, [e]).
Definition log {S : Type} (lvl : level) (msg : string) : M S unit := emit (Log lvl msg).

Declare Scope handler_scope.
Delimit Scope handler_scope with handler.
Notation "x <- m ;; k" := (bind m (fun x => k))
  (at level 61, m at next level, right associativity) : handler_scope.
Notation "m ;; k" := (bind m (fun _ => k))
  (at level 61, right associativity) : handler_scope.
Local Open Scope handler_scope.

(* ================================================================= *)
(** ** Session registry: [sessionStore], a [Map], and its expiry timers *)

Record session : Type := mkSession {
  twilioAccountSid : value;
  twilioAuthToken : value;
  elevenLabsApiKey : value;
  elevenLabsAgentId : value;
  serverUrl : value
}.

(** A [Map] with string keys, in insertion order. *)
Definition Map (A : Type) : Type := list (string * A).

Fixpoint Map_set {A : Type} (k : string) (v : A) (m : Map A) : Map A :=
  match m with
  | [] => [(k, v)]
  | (k', v') :: rest =>
      if k' =? k then (k, v) :: rest else (k', v') :: Map_set k v rest
  end.

(** [m.delete(k)]: a [Map] holds a key once; whatever is bound to [k]
    goes. *)
Fixpoint Map_delete {A : Type} (k : string) (m : Map A) : Map A :=
  match m with
  | [] => []
  | (k', v') :: rest =>
      if k' =? k then Map_delete k rest else (k', v') :: Map_delete k rest
  end.

(** [m.get(k)] for any key value: the keys of the store are strings, and
    no other value is the same as a string. *)
Definition Map_get {A : Type} (m : Map A) (k : value) : option A :=
  match k with
  | VStr id => lookup id m
  | _ => None
  end.

(** The process: the store, the pending [setTimeout] callbacks (each one
    is [() => sessionStore.delete(id)], kept as its due time and [id]) and
    the clock in milliseconds. *)
Record server : Type := mkServer {
  sessionStore : Map session;
  timers : list (N * string);
  now : N
}.

Definition store_set (id : string) (x : session) : M server unit :=
  modify (fun s => mkServer (Map_set id x (sessionStore s)) (timers s) (now s)).

(** [setTimeout(() => sessionStore.delete(id), delay)] *)
Definition setTimeout_delete (id : string) (delay : N) : M server unit :=
  modify (fun s => mkServer (sessionStore s) (timers s ++ [((now s + delay)%N, id)])%list (now s)).

Definition is_due (t : N) (tm : N * string) : bool := (fst tm <=? t)%N.

(** The clock reaches [t]: the callbacks due by then run, in order. *)
Definition fire_due (t : N) (s : server) : server :=
  mkServer
    (fold_left (fun m tm => Map_delete (snd tm) m)
               (filter (is_due t) (timers s)) (sessionStore s))
    (filter (fun tm => negb (is_due t tm)) (timers s))
    t.

Definition elapse (dt : N) (s : server) : server := fire_due (now s + dt)%N s.

(* ================================================================= *)
(** ** HTTP handlers *)

Inductive content : Type :=
| Json (v : value)
| Text (s : string)
| Twiml (stream_url : string).

Record reply : Type := mkReply { status : Z; body : content }.

(** The arguments of [twilioClient.calls.create]. *)
Record call_request : Type := mkCall {
  call_url : string;
  call_to : value;
  call_from : value;
  call_sendDigits : string
}.

(** Where [POST /initiate-call] stands when it returns control: it has
    replied, or it awaits [calls.create] for the session it stored. *)
Inductive initiate_step : Type :=
| Replied (r : reply)
| AwaitCall (req : call_request) (sessionId : string).

(** server.js lines 50-53 *)
Definition normalize_serverUrl (raw : value) : outcome value :=
  if truthy raw then
    match startsWith raw "http" with
    | Ok sw => Ok (if negb sw then VStr ("https://" ++ to_string raw) else raw)
    | Throw e => Throw e
    end
  else Ok raw.

(** server.js lines 77-86 *)
Definition build_sendDigits (meetingId passcode : value) : string :=
  let sendDigits := "wwww" in
  if truthy meetingId then
    let sendDigits := sendDigits ++ to_string meetingId ++ "#" in
    if truthy passcode then sendDigits ++ "wwww" ++ to_string passcode ++ "#"
    else sendDigits ++ "wwww#"
  else sendDigits.

Definition error_reply (what : string) (error : js_error) : list (string * value) :=
  [("error", VStr what); ("details", VStr (err_message error));
   ("code", err_code error); ("moreInfo", err_moreInfo error)].

Section Provider.
(** [new Twilio(accountSid, authToken)], which may throw. *)
Variable Twilio_new : value -> value -> outcome unit.

(** [POST /initiate-call] up to [await twilioClient.calls.create(...)];
    [uuid] is what [uuidv4()] returns. *)
Definition initiate_call (body : value) (uuid : string) : M server initiate_step :=
  let fields := js_or body (VObj []) in
  let twilioAccountSid := get_opt fields "twilioAccountSid" in
  let twilioAuthToken := get_opt fields "twilioAuthToken" in
  let twilioPhoneNumber := get_opt fields "twilioPhoneNumber" in
  let elevenLabsApiKey := get_opt fields "elevenLabsApiKey" in
  let elevenLabsAgentId := get_opt fields "elevenLabsAgentId" in
  let zoomDialIn := get_opt fields "zoomDialIn" in
  let meetingId := get_opt fields "meetingId" in
  let passcode := get_opt fields "passcode" in
  serverUrl <- lift (normalize_serverUrl (get_opt body "serverUrl")) ;;
  if negb (truthy serverUrl) || negb (truthy twilioAccountSid)
     || negb (truthy twilioAuthToken) || negb (truthy twilioPhoneNumber)
     || negb (truthy elevenLabsApiKey) || negb (truthy elevenLabsAgentId)
     || negb (truthy zoomDialIn)
  then
    ret (Replied (mkReply 400
           (Json (VObj [("error",
              VStr "All fields (except Meeting ID/Passcode) are required")]))))
  else
    let sessionId := uuid in
    store_set sessionId
      (mkSession twilioAccountSid twilioAuthToken elevenLabsApiKey
                 elevenLabsAgentId serverUrl) ;;
    setTimeout_delete sessionId 3600000 ;;
    try_catch
      (lift (Twilio_new twilioAccountSid twilioAuthToken) ;;
       let sendDigits := build_sendDigits meetingId passcode in
       ret (AwaitCall
              (mkCall (to_string serverUrl ++ "/call/twiml?sessionId=" ++ sessionId)
                      zoomDialIn twilioPhoneNumber sendDigits)
              sessionId))
      (fun error =>
         log Error (err_message error) ;;
         ret (Replied (mkReply 500
                (Json (VObj (error_reply "Failed to initiate call" error)))))).

(** The rest of the handler, once [calls.create] has resolved with
    [call] or rejected. *)
Definition initiate_call_resume (sessionId : string) (created : outcome value)
  : M server reply :=
  try_catch
    (call <- lift created ;;
     sid <- lift (get call "sid") ;;
     log Info ("Call initiated: " ++ to_string sid ++ " (Session: " ++ sessionId ++ ")") ;;
     ret (mkReply 200
            (Json (VObj [("success", VBool true); ("callSid", sid);
                         ("sessionId", VStr sessionId)]))))
    (fun error =>
       log Error (err_message error) ;;
       ret (mkReply 500 (Json (VObj (error_reply "Failed to initiate call" error))))).

Inductive hangup_step : Type :=
| HangupReplied (r : reply)
| AwaitUpdate (callSid : value).

(** [POST /hangup-call] up to [await ...update({status: 'completed'})]. *)
Definition hangup_call (body : value) : M server hangup_step :=
  let callSid := get_opt (js_or body (VObj [])) "callSid" in
  if negb (truthy callSid) then
    ret (HangupReplied (mkReply 400 (Json (VObj [("error", VStr "Call SID is required")]))))
  else
    s <- get_state ;;
    match sessionStore s with
    | [] =>
        ret (HangupReplied (mkReply 404
               (Json (VObj [("error", VStr "No active session found")]))))
    | (_, sessionData) :: _ =>
        try_catch
          (lift (Twilio_new (twilioAccountSid sessionData) (twilioAuthToken sessionData)) ;;
           ret (AwaitUpdate callSid))
          (fun error =>
             log Error (err_message error) ;;
             ret (HangupReplied (mkReply 500
                    (Json (VObj [("error", VStr "Failed to hang up call");
                                 ("details", VStr (err_message error))])))))
    end.
End Provider.

(** [serverUrl.replace(/^https/, 'wss')] *)
Definition replace_https_wss (v : value) : outcome string :=
  match v with
  | VStr s => Ok (if prefix "https" s then "wss" ++ drop 5 s else s)
  | _ => Throw (TypeError "serverUrl.replace is not a function")
  end.

(** [POST /call/twiml], with [sessionId] the value of [request.query.sessionId]. *)
Definition call_twiml (sessionId : value) : M server reply :=
  s <- get_state ;;
  match Map_get (sessionStore s) sessionId with
  | None =>
      log Error ("Session not found for TwiML: " ++ to_string sessionId) ;;
      ret (mkReply 404 (Text "Session not found"))
  | Some session =>
      base <- lift (replace_https_wss (serverUrl session)) ;;
      ret (mkReply 200
             (Twiml (base ++ "/media-stream?sessionId=" ++ to_string sessionId)))
  end.

(** [POST /call/status] *)
Definition call_status (body : value) : M server reply :=
  callStatus <- lift (get body "CallStatus") ;;
  callSid <- lift (get body "CallSid") ;;
  log Info ("Call Status Update: " ++ to_string callSid ++ " is " ++ to_string callStatus) ;;
  ret (mkReply 200 (Json (VObj [("status", VStr "ok")]))).

(* ================================================================= *)
(** ** Media bridge: [GET /media-stream] *)

(** [readyState] of a [ws] socket. *)
Inductive readyState : Type := CONNECTING | OPEN | CLOSING | CLOSED.

Definition readyState_eqb (a b : readyState) : bool :=
  match a, b with
  | CONNECTING, CONNECTING | OPEN, OPEN | CLOSING, CLOSING | CLOSED, CLOSED => true
  | _, _ => false
  end.

(** The variables one upgrade's closures share, and the state of its two
    sockets: [elevenLabsWs] is the agent socket, [twilioSocket] is
    [connection.socket]. *)
Record bridge : Type := mkBridge {
  streamSid : value;
  elevenLabsWs : readyState;
  isElevenLabsConnected : bool;
  twilioSocket : readyState
}.

Definition set_streamSid (v : value) (b : bridge) : bridge :=
  mkBridge v (elevenLabsWs b) (isElevenLabsConnected b) (twilioSocket b).
Definition set_elevenLabsWs (r : readyState) (b : bridge) : bridge :=
  mkBridge (streamSid b) r (isElevenLabsConnected b) (twilioSocket b).
Definition set_isElevenLabsConnected (f : bool) (b : bridge) : bridge :=
  mkBridge (streamSid b) (elevenLabsWs b) f (twilioSocket b).
Definition set_twilioSocket (r : readyState) (b : bridge) : bridge :=
  mkBridge (streamSid b) (elevenLabsWs b) (isElevenLabsConnected b) r.

(** server.js lines 195-205: the state right after the upgrade. *)
Definition bridge_init : bridge := mkBridge VNull CONNECTING false OPEN.

(** [close()] of [ws]: an open or connecting socket starts closing. *)
Definition ws_close (r : readyState) : readyState :=
  match r with
  | CONNECTING | OPEN => CLOSING
  | CLOSING => CLOSING
  | CLOSED => CLOSED
  end.

(** [elevenLabsWs.close()] *)
Definition elevenLabsWs_close : M bridge unit :=
  modify (fun b => set_elevenLabsWs (ws_close (elevenLabsWs b)) b) ;;
  emit AgentClose.

(** The arguments of [new WebSocket(elevenLabsUrl, {headers})] at lines
    200-205: the address and the value of the [xi-api-key] header. *)
Record agent_socket : Type := mkAgentSocket {
  elevenLabsUrl : string;
  xi_api_key : value
}.

(** The upgrade handler up to the construction of the agent socket at line
    201, with [sessionId] the value of [url.searchParams.get('sessionId')].
    [None]: the handler has returned, no agent socket is asked for and no
    bridge is set up. *)
Definition media_stream (sessionId : value) : M server (option agent_socket) :=
  log Info ("WebSocket connection attempt with sessionId: " ++ to_string sessionId) ;;
  s <- get_state ;;
  match Map_get (sessionStore s) sessionId with
  | None =>
      log Error ("Session not found for WebSocket: " ++ to_string sessionId) ;;
      emit TwilioClose ;;
      ret None
  | Some session =>
      log Info ("Twilio media stream connected (Session: " ++ to_string sessionId ++ ")") ;;
      ret (Some (mkAgentSocket
                   ("wss://api.elevenlabs.io/v1/convai/conversation?agent_id="
                    ++ to_string (elevenLabsAgentId session))
                   (elevenLabsApiKey session)))
  end.


(** server.js lines 271-296 *)
Definition handleElevenLabsMessage (message : value) (streamSid : value) : M bridge unit :=
  type <- lift (get message "type") ;;
  if strict_eq_str type "conversation_initiation_metadata" then
    emit (ConsoleLog "ElevenLabs conversation initiated")
  else if strict_eq_str type "audio" then
    audio_event <- lift (get message "audio_event") ;;
    if truthy (get_opt audio_event "audio_base_64") then
      audio_event <- lift (get message "audio_event") ;;
      payload <- lift (get audio_event "audio_base_64") ;;
      let audioData :=
        [("event", VStr "media"); ("streamSid", streamSid);
         ("media", VObj [("payload", payload)])] in
      emit (TwilioSend (JSON_stringify audioData))
    else ret tt
  else if strict_eq_str type "ping" then
    ping_event <- lift (get message "ping_event") ;;
    if truthy (get_opt ping_event "event_id") then ret tt else ret tt
  else ret tt.

Section Bridge.
(** [JSON.parse]: [None] when it throws a [SyntaxError]. *)
Variable JSON_parse : string -> option value.

Definition JSON_parse_or_throw (text : string) : outcome value :=
  match JSON_parse text with
  | Some v => Ok v
  | None => Throw (SyntaxError "Unexpected token in JSON")
  end.

(** server.js lines 207-210 *)
Definition on_elevenLabs_open : M bridge unit :=
  log Info "Connected to ElevenLabs" ;;
  modify (set_isElevenLabsConnected true).

(** server.js lines 212-219 *)
Definition on_elevenLabs_message (data : string) : M bridge unit :=
  try_catch
    (message <- lift (JSON_parse_or_throw data) ;;
     b <- get_state ;;
     handleElevenLabsMessage message (streamSid b))
    (fun error => log Error "Error parsing ElevenLabs message:").

(** server.js lines 221-223 *)
Definition on_elevenLabs_error (error : js_error) : M bridge unit :=
  log Error "ElevenLabs WebSocket error:".

(** server.js lines 225-228 *)
Definition on_elevenLabs_close (code : Z) (reason : string) : M bridge unit :=
  log Info ("ElevenLabs disconnected. Code: " ++ string_of_Z code
            ++ ", Reason: " ++ reason) ;;
  modify (set_isElevenLabsConnected false).

(** server.js lines 231-260 *)
Definition on_twilio_message (message : string) : M bridge unit :=
  try_catch
    (data <- lift (JSON_parse_or_throw message) ;;
     event <- lift (get data "event") ;;
     if strict_eq_str event "start" then
       start <- lift (get data "start") ;;
       sid <- lift (get start "streamSid") ;;
       modify (set_streamSid sid) ;;
       log Info ("Stream started: " ++ to_string sid)
     else if strict_eq_str event "media" then
       b <- get_state ;;
       if isElevenLabsConnected b && readyState_eqb (elevenLabsWs b) OPEN then
         media <- lift (get data "media") ;;
         payload <- lift (get media "payload") ;;
         let audioPayload := [("user_audio_chunk", payload)] in
         emit (AgentSend (JSON_stringify audioPayload))
       else ret tt
     else if strict_eq_str event "stop" then
       b <- get_state ;;
       log Info ("Stream stopped: " ++ to_string (streamSid b)) ;;
       if readyState_eqb (elevenLabsWs b) OPEN then elevenLabsWs_close else ret tt
     else ret tt)
    (fun error => log Error "Error parsing Twilio message:").

(** server.js lines 262-267; [elevenLabsWs] was assigned at line 201 and
    is never null here. *)
Definition on_twilio_close : M bridge unit :=
  log Info "Twilio media stream disconnected" ;;
  b <- get_state ;;
  if readyState_eqb (elevenLabsWs b) OPEN then elevenLabsWs_close else ret tt.

(** What the two sockets deliver to the listeners of one bridge. *)
Inductive event : Type :=
| AgentOpen
| AgentMessage (data : string)
| AgentError (error : js_error)
| AgentClosed (code : Z) (reason : string)
| TwilioMessage (message : string)
| TwilioClosed.

(** [ws] moves [readyState] before it emits: to [OPEN] for ['open'], to
    [CLOSING] for ['error'], to [CLOSED] for ['close']; then the listener
    runs. *)
Definition deliver (ev : event) : M bridge unit :=
  match ev with
  | AgentOpen => modify (set_elevenLabsWs OPEN) ;; on_elevenLabs_open
  | AgentMessage data => on_elevenLabs_message data
  | AgentError error => modify (set_elevenLabsWs CLOSING) ;; on_elevenLabs_error error
  | AgentClosed code reason =>
      modify (set_elevenLabsWs CLOSED) ;; on_elevenLabs_close code reason
  | TwilioMessage message => on_twilio_message message
  | TwilioClosed => modify (set_twilioSocket CLOSED) ;; on_twilio_close
  end.

Definition state_after {A : Type} (r : outcome A * bridge * list effect) : bridge :=
  snd (fst r).

(** The bridge after a sequence of events. *)
Definition run (b : bridge) (evs : list event) : bridge :=
  fold_left (fun st ev => state_after (deliver ev st)) evs b.

(** The calls and log lines of a sequence of events, in order. *)
Fixpoint trace (b : bridge) (evs : list event) : list effect :=
  match evs with
  | [] => []
  | ev :: rest => (snd (deliver ev b) ++ trace (state_after (deliver ev b)) rest)%list
  end.

(** [message] decodes to a telephony [start] event. *)
Definition is_start (ev : event) : bool :=
  match ev with
  | TwilioMessage message =>
      match JSON_parse message with
      | Some data => match get data "event" with
                     | Ok e => strict_eq_str e "start"
                     | Throw _ => false
                     end
      | None => false
      end
  | _ => false
  end.
End Bridge.

(* ================================================================= *)
(** ** The process as a whole *)

Inductive request : Type :=
| InitiateCall (body : value) (uuid : string)
| InitiateCallResume (sessionId : string) (created : outcome value)
| HangupCall (body : value)
| CallTwiml (sessionId : value)
| CallStatus (body : value)
| MediaStream (sessionId : value)
| Elapse (dt : N).

Section Process.
Variable Twilio_new : value -> value -> outcome unit.

(** The registry after one request or one lapse of time. *)
Definition serve (s : server) (r : request) : server :=
  match r with
  | InitiateCall body uuid => snd (fst (initiate_call Twilio_new body uuid s))
  | InitiateCallResume sessionId created =>
      snd (fst (initiate_call_resume sessionId created s))
  | HangupCall body => snd (fst (hangup_call Twilio_new body s))
  | CallTwiml sessionId => snd (fst (call_twiml sessionId s))
  | CallStatus body => snd (fst (call_status body s))
  | MediaStream sessionId => snd (fst (media_stream sessionId s))
  | Elapse dt => elapse dt s
  end.

Definition serve_all (s : server) (rs : list request) : server :=
  fold_left serve rs s.
End Process.

Definition elapsed (rs : list request) : N :=
  fold_right (fun r acc => match r with Elapse dt => (dt + acc)%N | _ => acc end) 0%N rs.

(** No request of [rs] draws the identifier [id] from [uuidv4()]. *)
Definition never_draws (id : string) (rs : list request) : bool :=
  forallb (fun r => match r with
                    | InitiateCall _ uuid => negb (uuid =? id)
                    | _ => true
                    end) rs.

(** No callback is pending for [id]. *)
Definition no_timer (id : string) (s : server) : bool :=
  forallb (fun tm => negb (snd tm =? id)) (timers s).

(** A request with every required field present and non-empty, and a
    callback address that is a string. *)
Definition valid_request (body : value) : bool :=
  match get_opt body "serverUrl" with
  | VStr url =>
      negb (url =? "")
      && truthy (get_opt body "twilioAccountSid")
      && truthy (get_opt body "twilioAuthToken")
      && truthy (get_opt body "twilioPhoneNumber")
      && truthy (get_opt body "elevenLabsApiKey")
      && truthy (get_opt body "elevenLabsAgentId")
      && truthy (get_opt body "zoomDialIn")
  | _ => false
  end.

(** The session that a valid [body] leaves in the store. *)
Definition session_of (body : value) (url : value) : session :=
  mkSession (get_opt body "twilioAccountSid") (get_opt body "twilioAuthToken")
            (get_opt body "elevenLabsApiKey") (get_opt body "elevenLabsAgentId") url.


(** An explicit scheme in the sense of a URL: a letter, then letters,
    digits, [+], [-] or [.], then [://]. *)
Definition is_alpha (c : ascii) : bool :=
  let n := N_of_ascii c in
  (((65 <=? n) && (n <=? 90)) || ((97 <=? n) && (n <=? 122)))%N.

Definition is_scheme_char (c : ascii) : bool :=
  let n := N_of_ascii c in
  is_alpha c || is_digit c || (n =? 43)%N || (n =? 45)%N || (n =? 46)%N.

Fixpoint scheme_rest (s : string) : bool :=
  match s with
  | String c r =>
      if (N_of_ascii c =? 58)%N then prefix "//" r
      else if is_scheme_char c then scheme_rest r
      else false
  | EmptyString => false
  end.

Definition has_explicit_scheme (s : string) : bool :=
  match s with
  | String c r => is_alpha c && scheme_rest r
  | EmptyString => false
  end.

(** The normalization in the words of the specification: [https://] in
    front of an address without a scheme, an address with a scheme as it
    is.  Compared with [normalize_serverUrl] below. *)
Definition spec_normalize (url : string) : string :=
  if has_explicit_scheme url then url else "https://" ++ url.

(** What lines 50-53 make of a non-empty string. *)
Definition normalized (url : string) : string :=
  if prefix "http" url then url else "https://" ++ url.

(** The registry after lines 60-70 for a valid [body] whose callback
    address is [url]. *)
Definition stored (body : value) (url uuid : string) (s : server) : server :=
  mkServer (Map_set uuid (session_of body (VStr (normalized url))) (sessionStore s))
           (timers s ++ [((now s + 3600000)%N, uuid)])
           (now s).

(** The arguments of lines 88-93 for such a [body]. *)
Definition placed (body : value) (url uuid : string) : call_request :=
  mkCall (normalized url ++ "/call/twiml?sessionId=" ++ uuid)
         (get_opt body "zoomDialIn") (get_opt body "twilioPhoneNumber")
         (build_sendDigits (get_opt body "meetingId") (get_opt body "passcode")).

(** A provider client that accepts any credentials. *)
Definition Twilio_accepts (accountSid authToken : value) : outcome unit := Ok tt.

(** A request body for the examples. *)
Definition body_with (url : string) (meetingId passcode : value) : value :=
  VObj [("twilioAccountSid", VStr "AC0123"); ("twilioAuthToken", VStr "secret");
        ("twilioPhoneNumber", VStr "+15550100"); ("elevenLabsApiKey", VStr "xi-key");
        ("elevenLabsAgentId", VStr "agent-7"); ("zoomDialIn", VStr "+16465588656");
        ("serverUrl", VStr url); ("meetingId", meetingId); ("passcode", passcode)].

Definition server_init : server := mkServer [] [] 0.

(** The flag is up whenever the agent socket is open. *)
Definition open_is_connected (b : bridge) : Prop :=
  elevenLabsWs b = OPEN -> isElevenLabsConnected b = true.

(** Frames for the examples. *)
Definition start_S1 : string := js "{'event':'start','start':{'streamSid':'S1'}}".
Definition media_abc : string := js "{'event':'media','media':{'payload':'abc'}}".
Definition audio_xyz : string :=
  js "{'type':'audio','audio_event':{'audio_base_64':'xyz','event_id':7}}".
Definition ping_3 : string := js "{'type':'ping','ping_event':{'event_id':3}}".

(** The life of the session that [POST /initiate-call] stored under [id]
    with a callback due at [due]: until the clock reaches [due] the session
    is in the store and that callback is pending; from then on the store
    has nothing under [id]; and no other callback is ever pending for
    [id]. *)
Definition ttl_invariant (id : string) (x : session) (due : N) (s : server) : Prop :=
  (forall d, In (d, id) (timers s) -> d = due)
  /\ ((now s < due)%N -> lookup id (sessionStore s) = Some x /\ In (due, id) (timers s))
  /\ ((due <= now s)%N ->
      lookup id (sessionStore s) = None /\ forall d, ~ In (d, id) (timers s)).

(** The process of the examples after one valid [POST /initiate-call]. *)
Definition server_6f1c : server :=
  serve Twilio_accepts server_init
        (InitiateCall (body_with "bridge.example.com" VUndefined VUndefined) "6f1c").

(** The bridge of the examples once the stream has started and the agent
    socket is open. *)
Definition bridge_streaming : bridge :=
  run parse_json bridge_init [TwilioMessage start_S1; AgentOpen].

(* ================================================================= *)
(** ** The remaining handlers *)

(** [GET /health] *)
Definition health : reply :=
  mkReply 200
    (Json (VObj [("status", VStr "ok");
                 ("message", VStr "ElevenLabs Zoom Bridge Server is running")])).

(** [POST /hangup-call] from line 131 on, once
    [twilioClient.calls(callSid).update(...)] has resolved or rejected. *)
Definition hangup_call_resume (callSid : value) (updated : outcome unit)
  : M server reply :=
  try_catch
    (lift updated ;;
     log Info ("Call " ++ to_string callSid ++ " terminated") ;;
     ret (mkReply 200
            (Json (VObj [("success", VBool true); ("message", VStr "Call ended")]))))
    (fun error =>
       log Error (err_message error) ;;
       ret (mkReply 500
              (Json (VObj [("error", VStr "Failed to hang up call");
                           ("details", VStr (err_message error))])))).

(** A call on the agent socket. *)
Definition is_agent_call (e : effect) : bool :=
  match e with
  | AgentSend _ | AgentClose => true
  | _ => false
  end.

Definition is_agent_open (ev : event) : bool :=
  match ev with
  | AgentOpen => true
  | _ => false
  end.

(** A session as lines 61-67 can have stored it: every credential truthy
    and a non-empty string for the callback address. *)
Definition session_well_formed (x : session) : Prop :=
  truthy (twilioAccountSid x) = true
  /\ truthy (twilioAuthToken x) = true
  /\ truthy (elevenLabsApiKey x) = true
  /\ truthy (elevenLabsAgentId x) = true
  /\ exists url, serverUrl x = VStr url /\ url <> "".

Definition store_well_formed (s : server) : Prop :=
  forall id x, lookup id (sessionStore s) = Some x -> session_well_formed x.

(** Every session of the store has its deletion pending, due within the
    hour. *)
Definition expiry_pending (s : server) : Prop :=
  forall id x,
    lookup id (sessionStore s) = Some x ->
    exists d, In (d, id) (timers s) /\ (now s < d)%N /\ (d <= now s + 3600000)%N.


(** A request body that lacks the dial-in number, for the examples. *)
Definition body_without_dial_in : value :=
  VObj [("twilioAccountSid", VStr "AC0123"); ("twilioAuthToken", VStr "secret");
        ("twilioPhoneNumber", VStr "+15550100"); ("elevenLabsApiKey", VStr "xi-key");
        ("elevenLabsAgentId", VStr "agent-7"); ("serverUrl", VStr "bridge.example.com")].

(** A request body whose callback address is a number. *)
Definition body_with_numeric_url : value :=
  VObj [("twilioAccountSid", VStr "AC0123"); ("twilioAuthToken", VStr "secret");
        ("twilioPhoneNumber", VStr "+15550100"); ("elevenLabsApiKey", VStr "xi-key");
        ("elevenLabsAgentId", VStr "agent-7"); ("zoomDialIn", VStr "+16465588656");
        ("serverUrl", VNum 8080)].

(** A provider client that refuses any credentials. *)
Definition Twilio_refuses (accountSid authToken : value) : outcome unit :=
  Throw (mkError "Error" "accountSid must start with AC" VUndefined VUndefined).

(** A request body with other credentials than [body_with]. *)
Definition body_other : value :=
  VObj [("twilioAccountSid", VStr "AC9999"); ("twilioAuthToken", VStr "other");
        ("twilioPhoneNumber", VStr "+15550199"); ("elevenLabsApiKey", VStr "xi-2");
        ("elevenLabsAgentId", VStr "agent-9"); ("zoomDialIn", VStr "+16465588656");
        ("serverUrl", VStr "https://other.example.com")].

(** A provider client that accepts the credentials of the first session
    of the examples and no others. *)
Definition Twilio_accepts_AC0123 (accountSid authToken : value) : outcome unit :=
  if strict_eq_str accountSid "AC0123" then Ok tt
  else Throw (mkError "Error" "Authenticate" (VNum 20003) VUndefined).

(* ================================================================= *)
(** * Properties *)

Example stringify_audio :
  JSON_stringify [("event", VStr "media"); ("streamSid", VStr "S1");
                  ("media", VObj [("payload", VStr "xyz")])]
  = js "{'event':'media','streamSid':'S1','media':{'payload':'xyz'}}".
Proof. reflexivity. Qed.

Example parse_media :
  parse_json (js "{ 'event': 'media', 'media': {'payload':'abc', 'track': 'inbound'} }")
  = Some (VObj [("event", VStr "media");
                ("media", VObj [("payload", VStr "abc"); ("track", VStr "inbound")])]).
Proof. reflexivity. Qed.

Example parse_malformed : parse_json "{'event':" = None /\ parse_json "hello" = None
  /\ parse_json (js "{'a':1,}") = None /\ parse_json (js "{'a':01}") = None
  /\ parse_json "" = None /\ parse_json (js "{'a':1} x") = None.
Proof. repeat split; reflexivity. Qed.

Example parse_misc :
  parse_json (js "[1, -20, true, null, 'a\nb', {'k':[ ], 'k2':{}, 'k':0}]")
  = Some (VArr [VNum 1; VNum (-20); VBool true; VNull;
                VStr (String "a" (String "010" "b"));
                VObj [("k", VNum 0); ("k2", VObj [])]]).
Proof. reflexivity. Qed.

(** ** Strings *)

Lemma append_assoc (a b c : string) : (a ++ b) ++ c = a ++ (b ++ c).
Proof. induction a as [|x a IH]; simpl; [reflexivity | now rewrite IH]. Qed.

(** ** DTMF sequence *)

Lemma sendDigits_no_meeting meetingId passcode :
  truthy meetingId = false -> build_sendDigits meetingId passcode = "wwww".
Proof. intros E. unfold build_sendDigits. rewrite E. reflexivity. Qed.

Lemma sendDigits_no_passcode meetingId passcode :
  truthy meetingId = true -> truthy passcode = false ->
  build_sendDigits meetingId passcode = "wwww" ++ to_string meetingId ++ "#wwww#".
Proof.
  intros E1 E2. unfold build_sendDigits. rewrite E1, E2.
  rewrite !append_assoc. reflexivity.
Qed.

(** ** [POST /initiate-call] *)

Lemma normalize_serverUrl_string (url : string) :
  normalize_serverUrl (VStr url) = Ok (VStr (if url =? "" then url else normalized url)).
Proof.
  unfold normalize_serverUrl, normalized. simpl.
  destruct (url =? "") eqn:E; simpl; [reflexivity |].
  destruct (prefix "http" url); reflexivity.
Qed.

Lemma normalized_not_empty (url : string) : url <> "" -> (normalized url =? "") = false.
Proof.
  intros N. unfold normalized. destruct (prefix "http" url).
  - now apply String.eqb_neq.
  - reflexivity.
Qed.

Lemma valid_request_inv (body : value) :
  valid_request body = true ->
  exists props url,
    body = VObj props /\ get_opt body "serverUrl" = VStr url /\ url <> ""
    /\ truthy (get_opt body "twilioAccountSid") = true
    /\ truthy (get_opt body "twilioAuthToken") = true
    /\ truthy (get_opt body "twilioPhoneNumber") = true
    /\ truthy (get_opt body "elevenLabsApiKey") = true
    /\ truthy (get_opt body "elevenLabsAgentId") = true
    /\ truthy (get_opt body "zoomDialIn") = true.
Proof.
  unfold valid_request. intros V.
  destruct (get_opt body "serverUrl") as [| | | |url| |] eqn:U; try discriminate.
  destruct body as [| | | | | |props]; try discriminate U.
  exists props, url.
  repeat (apply andb_prop in V; destruct V as [V ?]).
  apply negb_true_iff, String.eqb_neq in V.
  repeat split; assumption.
Qed.

Section InitiateCall.
Variable Twilio_new : value -> value -> outcome unit.

Lemma initiate_call_valid (body : value) (uuid url : string) (s : server) :
  valid_request body = true ->
  get_opt body "serverUrl" = VStr url ->
  initiate_call Twilio_new body uuid s =
  match Twilio_new (get_opt body "twilioAccountSid") (get_opt body "twilioAuthToken") with
  | Ok _ => (Ok (AwaitCall (placed body url uuid) uuid), stored body url uuid s, [])
  | Throw e =>
      (Ok (Replied (mkReply 500 (Json (VObj (error_reply "Failed to initiate call" e))))),
       stored body url uuid s, [Log Error (err_message e)])
  end.
Proof.
  intros V U.
  destruct (valid_request_inv _ V) as (props & url0 & -> & U0 & N & T1 & T2 & T3 & T4 & T5 & T6).
  rewrite U in U0. injection U0 as <-.
  unfold initiate_call.
  change (js_or (VObj props) (VObj [])) with (VObj props).
  rewrite U, normalize_serverUrl_string.
  rewrite (proj2 (String.eqb_neq _ _) N).
  cbv beta iota delta [lift bind].
  cbn [truthy]. rewrite (normalized_not_empty url N).
  rewrite T1, T2, T3, T4, T5, T6. cbn [negb orb].
  unfold store_set, setTimeout_delete, modify, try_catch, ret, log, emit. cbn [sessionStore timers now].
  destruct (Twilio_new _ _) as [[]|e]; reflexivity.
Qed.
End InitiateCall.

(** ** The [Map] *)

Lemma lookup_Map_set_same {A : Type} (k : string) (v : A) (m : Map A) :
  lookup k (Map_set k v m) = Some v.
Proof.
  induction m as [|[k' v'] m IH]; simpl.
  - now rewrite String.eqb_refl.
  - destruct (k' =? k) eqn:E; simpl.
    + now rewrite String.eqb_refl.
    + now rewrite E.
Qed.

Lemma lookup_Map_set_other {A : Type} (k k0 : string) (v : A) (m : Map A) :
  k0 <> k -> lookup k (Map_set k0 v m) = lookup k m.
Proof.
  intros N. induction m as [|[k' v'] m IH]; simpl.
  - now rewrite (proj2 (String.eqb_neq _ _) N).
  - destruct (k' =? k0) eqn:E; simpl.
    + apply String.eqb_eq in E. subst k'.
      now rewrite (proj2 (String.eqb_neq _ _) N).
    + now rewrite IH.
Qed.

Lemma lookup_Map_delete_same {A : Type} (k : string) (m : Map A) :
  lookup k (Map_delete k m) = None.
Proof.
  induction m as [|[k' v'] m IH]; simpl; [reflexivity |].
  destruct (k' =? k) eqn:E; simpl; [exact IH | now rewrite E].
Qed.

Lemma lookup_Map_delete_other {A : Type} (k k0 : string) (m : Map A) :
  k0 <> k -> lookup k (Map_delete k0 m) = lookup k m.
Proof.
  intros N. induction m as [|[k' v'] m IH]; simpl; [reflexivity |].
  destruct (k' =? k0) eqn:E; simpl.
  - apply String.eqb_eq in E. subst k'.
    now rewrite (proj2 (String.eqb_neq _ _) N).
  - now rewrite IH.
Qed.

(** ** After [await calls.create] *)




(** ** Claims on [POST /initiate-call] *)

Section InitiateCallClaims.
Variable Twilio_new : value -> value -> outcome unit.

Lemma initiate_call_stores (body : value) (uuid url : string) (s : server) :
  valid_request body = true ->
  get_opt body "serverUrl" = VStr url ->
  exists step t,
    initiate_call Twilio_new body uuid s = (Ok step, stored body url uuid s, t)
    /\ (forall u, Twilio_new (get_opt body "twilioAccountSid")
                             (get_opt body "twilioAuthToken") = Ok u ->
                  step = AwaitCall (placed body url uuid) uuid)
    /\ (forall req sid, step = AwaitCall req sid ->
                        req = placed body url uuid /\ sid = uuid).
Proof.
  intros V U. rewrite (initiate_call_valid Twilio_new body uuid url s V U).
  destruct (Twilio_new _ _) as [u|e]; eexists; eexists; (split; [reflexivity |]); split.
  - intros _ _. reflexivity.
  - intros req sid E. injection E as <- <-. split; reflexivity.
  - intros u E. discriminate E.
  - intros req sid E. discriminate E.
Qed.


(** C2: the DTMF sequence of the request that [POST /initiate-call]
    places is [wwww1234#wwww56#] for meeting id 1234 and passcode 56,
    [wwww1234#wwww#] for meeting id 1234 and no passcode, and [wwww]
    when there is no meeting id, whatever the passcode. *)
Theorem sendDigits_sequence (body : value) (uuid : string) (s : server) :
  valid_request body = true ->
  Twilio_new (get_opt body "twilioAccountSid") (get_opt body "twilioAuthToken") = Ok tt ->
  exists req s' t,
    initiate_call Twilio_new body uuid s = (Ok (AwaitCall req uuid), s', t)
    /\ (get_opt body "meetingId" = VStr "1234" ->
        get_opt body "passcode" = VStr "56" ->
        call_sendDigits req = "wwww1234#wwww56#")
    /\ (get_opt body "meetingId" = VStr "1234" ->
        truthy (get_opt body "passcode") = false ->
        call_sendDigits req = "wwww1234#wwww#")
    /\ (truthy (get_opt body "meetingId") = false ->
        call_sendDigits req = "wwww").
Proof.
  intros V T.
  destruct (valid_request_inv _ V) as (props & url & -> & U & _).
  rewrite (initiate_call_valid Twilio_new (VObj props) uuid url s V U), T.
  exists (placed (VObj props) url uuid), (stored (VObj props) url uuid s), [].
  split; [reflexivity |]. cbn [placed call_sendDigits].
  split; [| split].
  - intros -> ->. reflexivity.
  - intros -> P. now rewrite sendDigits_no_passcode.
  - intros M. now apply sendDigits_no_meeting.
Qed.

(** X22: what lines 50-53 do, whatever they were meant to do: the address
    stored in the session and put in front of the reference URL is the
    supplied one when that begins with the four characters [http], and
    [https://] followed by the supplied one otherwise. *)
Theorem serverUrl_normalized_by_prefix (body : value) (uuid url : string) (s : server) :
  valid_request body = true ->
  get_opt body "serverUrl" = VStr url ->
  exists step s' t sess,
    initiate_call Twilio_new body uuid s = (Ok step, s', t)
    /\ Map_get (sessionStore s') (VStr uuid) = Some sess
    /\ serverUrl sess = VStr (if prefix "http" url then url else "https://" ++ url)
    /\ (forall req sid, step = AwaitCall req sid ->
          call_url req
          = (if prefix "http" url then url else "https://" ++ url)
            ++ "/call/twiml?sessionId=" ++ uuid).
Proof.
  intros V U.
  destruct (initiate_call_stores body uuid url s V U) as (step & t & E & _ & Hreq).
  exists step, (stored body url uuid s), t, (session_of body (VStr (normalized url))).
  split; [exact E |].
  split; [apply lookup_Map_set_same |].
  split; [reflexivity |].
  intros req sid Hs. destruct (Hreq req sid Hs) as [-> _]. reflexivity.
Qed.
End InitiateCallClaims.


(** Meeting id 1234 with passcode 56. *)
Lemma sendDigits_sequence_witness :
  exists req s' t,
    initiate_call Twilio_accepts (body_with "bridge.example.com" (VStr "1234") (VStr "56"))
                  "6f1c" server_init = (Ok (AwaitCall req "6f1c"), s', t)
    /\ call_sendDigits req = "wwww1234#wwww56#".
Proof.
  destruct (sendDigits_sequence Twilio_accepts
              (body_with "bridge.example.com" (VStr "1234") (VStr "56")) "6f1c" server_init
              eq_refl eq_refl)
    as (req & s' & t & E & H1 & _ & _).
  exists req, s', t. split; [exact E | exact (H1 eq_refl eq_refl)].
Defined.

(** [bridge.example.com] is stored as [https://bridge.example.com]. *)
Lemma serverUrl_normalized_by_prefix_witness :
  exists step s' t sess,
    initiate_call Twilio_accepts (body_with "bridge.example.com" VUndefined VUndefined)
                  "6f1c" server_init = (Ok step, s', t)
    /\ Map_get (sessionStore s') (VStr "6f1c") = Some sess
    /\ serverUrl sess = VStr "https://bridge.example.com".
Proof.
  destruct (serverUrl_normalized_by_prefix Twilio_accepts
              (body_with "bridge.example.com" VUndefined VUndefined) "6f1c"
              "bridge.example.com" server_init eq_refl eq_refl)
    as (step & s' & t & sess & E & G & Hs & _).
  exists step, s', t, sess. repeat split; assumption.
Defined.

(** C9: the code at the inputs where it misses what lines 50-53 set out
    to do.  [httpbin.org] carries no scheme, yet it is stored as it is,
    without [https://], and the provider is given the reference URL
    [httpbin.org/call/twiml?sessionId=6f1c]; and [ws://bridge.example.com]
    carries a scheme, yet it is not left as it is.  The test at line 51 is
    on the prefix [http], not on the presence of a scheme. *)
Lemma serverUrl_normalization_not_by_scheme :
  (has_explicit_scheme "httpbin.org" = false
   /\ spec_normalize "httpbin.org" = "https://httpbin.org"
   /\ initiate_call Twilio_accepts (body_with "httpbin.org" VUndefined VUndefined)
                    "6f1c" server_init
      = (Ok (AwaitCall (mkCall "httpbin.org/call/twiml?sessionId=6f1c"
                               (VStr "+16465588656") (VStr "+15550100") "wwww") "6f1c"),
         mkServer [("6f1c", mkSession (VStr "AC0123") (VStr "secret") (VStr "xi-key")
                                      (VStr "agent-7") (VStr "httpbin.org"))]
                  [(3600000%N, "6f1c")] 0,
         []))
  /\ (has_explicit_scheme "ws://bridge.example.com" = true
      /\ spec_normalize "ws://bridge.example.com" = "ws://bridge.example.com"
      /\ normalize_serverUrl (VStr "ws://bridge.example.com")
         = Ok (VStr "https://ws://bridge.example.com")).
Proof. repeat split; reflexivity. Qed.

(** ** Unknown sessions *)

(** C6: for a session id that the registry does not hold, [POST /call/twiml]
    replies 404 and the media-stream upgrade calls [close()] on the
    telephony socket at once; in both cases the registry is as before, no
    agent socket is opened and no bridge is set up. *)
Theorem unknown_session_fails_closed (s : server) (sessionId : value) :
  Map_get (sessionStore s) sessionId = None ->
  call_twiml sessionId s
  = (Ok (mkReply 404 (Text "Session not found")), s,
     [Log Error ("Session not found for TwiML: " ++ to_string sessionId)])
  /\ media_stream sessionId s
     = (Ok None, s,
        [Log Info ("WebSocket connection attempt with sessionId: " ++ to_string sessionId);
         Log Error ("Session not found for WebSocket: " ++ to_string sessionId);
         TwilioClose]).
Proof.
  intros G. unfold call_twiml, media_stream, bind, get_state, log, emit, ret.
  rewrite G. split; reflexivity.
Qed.

(** An identifier asked of an empty registry. *)
Lemma unknown_session_fails_closed_witness :
  call_twiml (VStr "6f1c") server_init
  = (Ok (mkReply 404 (Text "Session not found")), server_init,
     [Log Error "Session not found for TwiML: 6f1c"])
  /\ media_stream (VStr "6f1c") server_init
     = (Ok None, server_init,
        [Log Info "WebSocket connection attempt with sessionId: 6f1c";
         Log Error "Session not found for WebSocket: 6f1c";
         TwilioClose]).
Proof. exact (unknown_session_fails_closed server_init (VStr "6f1c") eq_refl). Defined.


(** ** The bridge *)

Section BridgeFacts.
Variable JSON_parse : string -> option value.

(** C7: a frame that [JSON.parse] rejects, on either socket, costs one
    error line in the log and nothing else: the listener returns
    normally, the bridge (both [readyState]s included) is as before, and
    no call is made on either socket. *)
Theorem malformed_frame_discarded (raw : string) (b : bridge) :
  JSON_parse raw = None ->
  on_twilio_message JSON_parse raw b = (Ok tt, b, [Log Error "Error parsing Twilio message:"])
  /\ on_elevenLabs_message JSON_parse raw b
     = (Ok tt, b, [Log Error "Error parsing ElevenLabs message:"]).
Proof.
  intros E.
  unfold on_twilio_message, on_elevenLabs_message,
    try_catch, bind, lift, JSON_parse_or_throw.
  rewrite E. split; reflexivity.
Qed.
End BridgeFacts.

(** A truncated frame on a fresh bridge. *)
Lemma malformed_frame_discarded_witness :
  on_twilio_message parse_json "{'event':" bridge_init
  = (Ok tt, bridge_init, [Log Error "Error parsing Twilio message:"])
  /\ on_elevenLabs_message parse_json "{'event':" bridge_init
     = (Ok tt, bridge_init, [Log Error "Error parsing ElevenLabs message:"]).
Proof. exact (malformed_frame_discarded parse_json "{'event':" bridge_init eq_refl). Defined.

(** ** What a listener can do to the bridge *)

Ltac run_handler :=
  cbv beta iota zeta delta
    [on_twilio_message on_elevenLabs_message on_twilio_close on_elevenLabs_open
     on_elevenLabs_close on_elevenLabs_error handleElevenLabsMessage elevenLabsWs_close
     deliver state_after JSON_parse_or_throw
     bind try_catch lift ret modify emit log get_state fst snd].

Ltac split_handler :=
  repeat (run_handler;
          match goal with
          | |- context [match ?f ?r with Some _ => _ | None => _ end] =>
              destruct (f r) eqn:?
          | |- context [match get ?v ?k with Ok _ => _ | Throw _ => _ end] =>
              destruct (get v k) eqn:?
          | |- context [if ?c then _ else _] => destruct c eqn:?
          end).

Section BridgeSteps.
Variable JSON_parse : string -> option value.

Lemma on_elevenLabs_message_state (data : string) (b : bridge) :
  state_after (on_elevenLabs_message JSON_parse data b) = b
  /\ fst (fst (on_elevenLabs_message JSON_parse data b)) = Ok tt.
Proof. split_handler; split; reflexivity. Qed.

Lemma on_twilio_message_state (message : string) (b : bridge) :
  let b' := state_after (on_twilio_message JSON_parse message b) in
  fst (fst (on_twilio_message JSON_parse message b)) = Ok tt
  /\ (b' = b
      \/ (is_start JSON_parse (TwilioMessage message) = true
          /\ exists sid, b' = set_streamSid sid b)
      \/ (elevenLabsWs b = OPEN /\ b' = set_elevenLabsWs CLOSING b)).
Proof.
  unfold is_start.
  split_handler; (split; [reflexivity |]);
    first [ left; reflexivity
          | right; left; split; [reflexivity | eexists; reflexivity]
          | right; right; destruct (elevenLabsWs b); try discriminate;
            split; reflexivity ].
Qed.
End BridgeSteps.

Section BridgeInvariants.
Variable JSON_parse : string -> option value.

(** No listener throws past itself. *)
Lemma deliver_never_throws (ev : event) (b : bridge) :
  fst (fst (deliver JSON_parse ev b)) = Ok tt.
Proof.
  destruct ev as [|data|error|code reason|message|].
  - reflexivity.
  - apply on_elevenLabs_message_state.
  - reflexivity.
  - reflexivity.
  - apply on_twilio_message_state.
  - run_handler. destruct (readyState_eqb _ _); reflexivity.
Qed.

(** Only a [start] frame touches [streamSid]. *)
Lemma deliver_keeps_streamSid (ev : event) (b : bridge) :
  is_start JSON_parse ev = false ->
  streamSid (state_after (deliver JSON_parse ev b)) = streamSid b.
Proof.
  intros NS. destruct ev as [|data|error|code reason|message|].
  - reflexivity.
  - unfold deliver. now rewrite (proj1 (on_elevenLabs_message_state JSON_parse data b)).
  - reflexivity.
  - reflexivity.
  - unfold deliver.
    destruct (on_twilio_message_state JSON_parse message b) as [_ [E | [[S _] | [_ E]]]].
    + now rewrite E.
    + rewrite S in NS. discriminate NS.
    + now rewrite E.
  - run_handler. destruct (readyState_eqb _ _); reflexivity.
Qed.

Lemma run_keeps_streamSid (evs : list event) (b : bridge) :
  forallb (fun ev => negb (is_start JSON_parse ev)) evs = true ->
  streamSid (run JSON_parse b evs) = streamSid b.
Proof.
  revert b. induction evs as [|ev evs IH]; intros b NS; [reflexivity |].
  simpl in NS. apply andb_prop in NS. destruct NS as [N1 N2].
  apply negb_true_iff in N1.
  change (run JSON_parse b (ev :: evs))
    with (run JSON_parse (state_after (deliver JSON_parse ev b)) evs).
  rewrite (IH _ N2). now apply deliver_keeps_streamSid.
Qed.

Lemma deliver_open_is_connected (ev : event) (b : bridge) :
  open_is_connected b -> open_is_connected (state_after (deliver JSON_parse ev b)).
Proof.
  unfold open_is_connected. intros I.
  destruct ev as [|data|error|code reason|message|].
  - reflexivity.
  - unfold deliver. now rewrite (proj1 (on_elevenLabs_message_state JSON_parse data b)).
  - discriminate.
  - discriminate.
  - unfold deliver.
    destruct (on_twilio_message_state JSON_parse message b)
      as [_ [E | [[_ [sid E]] | [_ E]]]]; rewrite E.
    + exact I.
    + exact I.
    + discriminate.
  - destruct b as [sid ws flag tw]. cbn in I. run_handler.
    destruct ws; cbn; try discriminate; exact I.
Qed.

Lemma run_open_is_connected (evs : list event) (b : bridge) :
  open_is_connected b -> open_is_connected (run JSON_parse b evs).
Proof.
  revert b. induction evs as [|ev evs IH]; intros b I; [exact I |].
  apply (IH (state_after (deliver JSON_parse ev b))).
  now apply deliver_open_is_connected.
Qed.

Lemma bridge_init_open_is_connected : open_is_connected bridge_init.
Proof. discriminate. Qed.
End BridgeInvariants.

(** ** Forwarding *)

Lemma get_Ok_get_opt (v : value) (k : string) (x : value) :
  get v k = Ok x -> get_opt v k = x.
Proof. destruct v; simpl; intros E; try discriminate E; now injection E. Qed.

Section Forwarding.
Variable JSON_parse : string -> option value.

Lemma on_twilio_message_start (message : string) (data start sid : value) (b : bridge) :
  JSON_parse message = Some data ->
  get data "event" = Ok (VStr "start") ->
  get data "start" = Ok start ->
  get start "streamSid" = Ok sid ->
  on_twilio_message JSON_parse message b
  = (Ok tt, set_streamSid sid b, [Log Info ("Stream started: " ++ to_string sid)]).
Proof.
  intros P E S I. run_handler. rewrite P, E. run_handler.
  cbn [strict_eq_str String.eqb Ascii.eqb Bool.eqb]. rewrite S, I. reflexivity.
Qed.

Lemma on_twilio_message_media_closed (message : string) (data : value) (b : bridge) :
  JSON_parse message = Some data ->
  get data "event" = Ok (VStr "media") ->
  isElevenLabsConnected b && readyState_eqb (elevenLabsWs b) OPEN = false ->
  on_twilio_message JSON_parse message b = (Ok tt, b, []).
Proof.
  intros P E G. run_handler. rewrite P, E. run_handler.
  cbn [strict_eq_str String.eqb Ascii.eqb Bool.eqb]. rewrite G. reflexivity.
Qed.

Lemma on_twilio_message_media_open
      (message : string) (data media payload : value) (b : bridge) :
  JSON_parse message = Some data ->
  get data "event" = Ok (VStr "media") ->
  get data "media" = Ok media ->
  get media "payload" = Ok payload ->
  isElevenLabsConnected b && readyState_eqb (elevenLabsWs b) OPEN = true ->
  on_twilio_message JSON_parse message b
  = (Ok tt, b, [AgentSend (JSON_stringify [("user_audio_chunk", payload)])]).
Proof.
  intros P E M L G. run_handler. rewrite P, E. run_handler.
  cbn [strict_eq_str String.eqb Ascii.eqb Bool.eqb]. rewrite G, M, L. reflexivity.
Qed.

(** The agent's audio goes out once, under whatever [streamSid] holds. *)
Lemma on_elevenLabs_message_audio
      (data : string) (message audio_event payload : value) (b : bridge) :
  JSON_parse data = Some message ->
  get message "type" = Ok (VStr "audio") ->
  get message "audio_event" = Ok audio_event ->
  get audio_event "audio_base_64" = Ok payload ->
  truthy payload = true ->
  on_elevenLabs_message JSON_parse data b
  = (Ok tt, b,
     [TwilioSend (JSON_stringify
                    [("event", VStr "media"); ("streamSid", streamSid b);
                     ("media", VObj [("payload", payload)])])]).
Proof.
  intros P T A L Y. run_handler. rewrite P, T. run_handler.
  cbn [strict_eq_str String.eqb Ascii.eqb Bool.eqb]. rewrite A.
  rewrite (get_Ok_get_opt _ _ _ L), Y, L. reflexivity.
Qed.

(** C3: a telephony [media] frame that reaches a bridge whose agent
    socket is not open changes nothing and emits nothing (no send, no log
    line, no throw); with the agent socket open it makes exactly one
    call [elevenLabsWs.send], whose text is [JSON.stringify] of
    [{user_audio_chunk: payload}] for the payload of the frame. *)
Theorem media_frame_forwarded_when_open
        (evs : list event) (message : string) (data : value) :
  JSON_parse message = Some data ->
  get data "event" = Ok (VStr "media") ->
  let b := run JSON_parse bridge_init evs in
  (elevenLabsWs b <> OPEN ->
   on_twilio_message JSON_parse message b = (Ok tt, b, []))
  /\ (elevenLabsWs b = OPEN ->
      forall media payload,
        get data "media" = Ok media ->
        get media "payload" = Ok payload ->
        on_twilio_message JSON_parse message b
        = (Ok tt, b, [AgentSend (JSON_stringify [("user_audio_chunk", payload)])])).
Proof.
  intros P E b. subst b. split.
  - intros W. apply (on_twilio_message_media_closed message data _ P E).
    destruct (elevenLabsWs _); try (now destruct W); apply andb_false_r.
  - intros W media payload M L.
    apply (on_twilio_message_media_open message data media payload _ P E M L).
    rewrite (run_open_is_connected JSON_parse evs bridge_init
               bridge_init_open_is_connected W).
    rewrite W. reflexivity.
Qed.

(** C4: after a telephony [start] frame with [streamSid] S1, and any
    further events other than [start] frames, an agent [audio] frame with
    [audio_base_64] xyz makes exactly one call [connection.socket.send],
    with the text
    [{"event":"media","streamSid":"S1","media":{"payload":"xyz"}}]. *)
Theorem agent_audio_tagged_with_streamSid
        (b0 : bridge) (start_frame audio_frame : string)
        (data start message audio_event : value) (evs : list event) :
  JSON_parse start_frame = Some data ->
  get data "event" = Ok (VStr "start") ->
  get data "start" = Ok start ->
  get start "streamSid" = Ok (VStr "S1") ->
  forallb (fun ev => negb (is_start JSON_parse ev)) evs = true ->
  JSON_parse audio_frame = Some message ->
  get message "type" = Ok (VStr "audio") ->
  get message "audio_event" = Ok audio_event ->
  get audio_event "audio_base_64" = Ok (VStr "xyz") ->
  let b := run JSON_parse b0 (TwilioMessage start_frame :: evs) in
  deliver JSON_parse (AgentMessage audio_frame) b
  = (Ok tt, b,
     [TwilioSend (js "{'event':'media','streamSid':'S1','media':{'payload':'xyz'}}")]).
Proof.
  intros P E S I NS PA T A L b. subst b. unfold deliver.
  rewrite (on_elevenLabs_message_audio audio_frame message audio_event (VStr "xyz") _
             PA T A L eq_refl).
  assert (Hsid : streamSid (run JSON_parse b0 (TwilioMessage start_frame :: evs))
                 = VStr "S1").
  { change (run JSON_parse b0 (TwilioMessage start_frame :: evs))
      with (run JSON_parse
              (state_after (on_twilio_message JSON_parse start_frame b0)) evs).
    rewrite (run_keeps_streamSid JSON_parse evs _ NS).
    rewrite (on_twilio_message_start start_frame data start (VStr "S1") b0 P E S I).
    reflexivity. }
  rewrite Hsid. reflexivity.
Qed.

(** C10: before any [start] frame, an agent [audio] frame with a
    non-empty [audio_base_64] still makes one call
    [connection.socket.send]; the frame it sends has [streamSid] null. *)
Theorem agent_audio_before_start_has_null_streamSid
        (evs : list event) (audio_frame : string)
        (message audio_event : value) (payload : string) :
  forallb (fun ev => negb (is_start JSON_parse ev)) evs = true ->
  JSON_parse audio_frame = Some message ->
  get message "type" = Ok (VStr "audio") ->
  get message "audio_event" = Ok audio_event ->
  get audio_event "audio_base_64" = Ok (VStr payload) ->
  payload <> "" ->
  let b := run JSON_parse bridge_init evs in
  deliver JSON_parse (AgentMessage audio_frame) b
  = (Ok tt, b,
     [TwilioSend (JSON_stringify
                    [("event", VStr "media"); ("streamSid", VNull);
                     ("media", VObj [("payload", VStr payload)])])])
  /\ JSON_stringify [("event", VStr "media"); ("streamSid", VNull);
                     ("media", VObj [("payload", VStr payload)])]
     = js "{'event':'media','streamSid':null,'media':{'payload':"
       ++ quote payload ++ "}}".
Proof.
  intros NS PA T A L N b. subst b. split.
  - unfold deliver.
    rewrite (on_elevenLabs_message_audio audio_frame message audio_event
               (VStr payload) _ PA T A L).
    + rewrite (run_keeps_streamSid JSON_parse evs _ NS). reflexivity.
    + simpl. now rewrite (proj2 (String.eqb_neq _ _) N).
  - unfold JSON_stringify. cbn [stringify].
    generalize (quote payload). intros q.
    cbn [join]. rewrite !append_assoc. vm_compute. reflexivity.
Qed.

(** C1, as the code has it: when the telephony socket closes while the
    agent socket is open the listener calls [elevenLabsWs.close()], and
    the agent socket starts closing; when the agent socket closes the
    listener logs the fact and lowers [isElevenLabsConnected], makes no
    call on the telephony socket and leaves its state as it was. *)
Theorem close_propagates_from_telephony_only (b : bridge) :
  (elevenLabsWs b = OPEN ->
   deliver JSON_parse TwilioClosed b
   = (Ok tt, set_elevenLabsWs CLOSING (set_twilioSocket CLOSED b),
      [Log Info "Twilio media stream disconnected"; AgentClose]))
  /\ (forall code reason,
        deliver JSON_parse (AgentClosed code reason) b
        = (Ok tt, set_isElevenLabsConnected false (set_elevenLabsWs CLOSED b),
           [Log Info ("ElevenLabs disconnected. Code: " ++ string_of_Z code
                      ++ ", Reason: " ++ reason)])
        /\ twilioSocket (state_after (deliver JSON_parse (AgentClosed code reason) b))
           = twilioSocket b).
Proof.
  split.
  - intros W. destruct b as [sid ws flag tw]. cbn in W. subst ws. reflexivity.
  - intros code reason. split; reflexivity.
Qed.
End Forwarding.

(** The same [media] frame before and after the agent socket opens. *)
Lemma media_frame_forwarded_when_open_witness :
  on_twilio_message parse_json media_abc bridge_init = (Ok tt, bridge_init, [])
  /\ on_twilio_message parse_json media_abc (run parse_json bridge_init [AgentOpen])
     = (Ok tt, mkBridge VNull OPEN true OPEN,
        [AgentSend (js "{'user_audio_chunk':'abc'}")]).
Proof.
  split.
  - apply (media_frame_forwarded_when_open parse_json [] media_abc _ eq_refl eq_refl).
    discriminate.
  - exact (proj2 (media_frame_forwarded_when_open parse_json [AgentOpen] media_abc _
                    eq_refl eq_refl) eq_refl _ _ eq_refl eq_refl).
Defined.

(** A [start] frame, other traffic, then the agent's audio. *)
Lemma agent_audio_tagged_with_streamSid_witness :
  deliver parse_json (AgentMessage audio_xyz)
          (run parse_json bridge_init
               [TwilioMessage start_S1; AgentOpen; AgentMessage ping_3;
                TwilioMessage media_abc])
  = (Ok tt, mkBridge (VStr "S1") OPEN true OPEN,
     [TwilioSend (js "{'event':'media','streamSid':'S1','media':{'payload':'xyz'}}")]).
Proof.
  exact (agent_audio_tagged_with_streamSid parse_json bridge_init start_S1 audio_xyz
           _ _ _ _ [AgentOpen; AgentMessage ping_3; TwilioMessage media_abc]
           eq_refl eq_refl eq_refl eq_refl eq_refl eq_refl eq_refl eq_refl eq_refl).
Defined.

(** The agent speaks first: no [start] frame has arrived. *)
Lemma agent_audio_before_start_has_null_streamSid_witness :
  deliver parse_json (AgentMessage audio_xyz)
          (run parse_json bridge_init [AgentOpen; TwilioMessage media_abc])
  = (Ok tt, mkBridge VNull OPEN true OPEN,
     [TwilioSend (js "{'event':'media','streamSid':null,'media':{'payload':'xyz'}}")]).
Proof.
  refine (proj1 (agent_audio_before_start_has_null_streamSid parse_json
                   [AgentOpen; TwilioMessage media_abc] audio_xyz _ _ "xyz"
                   eq_refl eq_refl eq_refl eq_refl eq_refl _)).
  discriminate.
Defined.

(** The telephony socket of a bridge with an open agent socket closes. *)
Lemma close_propagates_from_telephony_only_witness :
  deliver parse_json TwilioClosed (run parse_json bridge_init [AgentOpen])
  = (Ok tt, mkBridge VNull CLOSING true CLOSED,
     [Log Info "Twilio media stream disconnected"; AgentClose]).
Proof.
  exact (proj1 (close_propagates_from_telephony_only parse_json
                  (run parse_json bridge_init [AgentOpen])) eq_refl).
Defined.

(** C1 as the specification words it fails in the second direction: the
    agent socket of a bridge with both sockets open closes, and the
    listener makes no call on the telephony socket, which stays open, also
    through the frames that follow. *)
Lemma agent_close_leaves_telephony_open :
  elevenLabsWs bridge_streaming = OPEN /\ twilioSocket bridge_streaming = OPEN
  /\ deliver parse_json (AgentClosed 1000 "done") bridge_streaming
     = (Ok tt, mkBridge (VStr "S1") CLOSED false OPEN,
        [Log Info "ElevenLabs disconnected. Code: 1000, Reason: done"])
  /\ trace parse_json bridge_streaming
            [AgentClosed 1000 "done"; TwilioMessage media_abc; TwilioMessage media_abc]
     = [Log Info "ElevenLabs disconnected. Code: 1000, Reason: done"]
  /\ twilioSocket (run parse_json bridge_streaming
                       [AgentClosed 1000 "done"; TwilioMessage media_abc;
                        TwilioMessage media_abc]) = OPEN.
Proof. repeat split; reflexivity. Qed.

(** ** Decoding what [JSON.stringify] wrote *)

(** The decoder reads a quoted string back as it was. *)
Lemma parse_quote_body (s rest : string) :
  parse_string_body (quote_body s ++ String "034" rest) = Some (s, rest).
Proof.
  induction s as [|c s IH]; [reflexivity |].
  cbn [quote_body]. rewrite append_assoc.
  destruct c as [[] [] [] [] [] [] [] []];
    vm_compute quote_char; cbn [append parse_string_body];
    vm_compute N.eqb; vm_compute N.ltb; cbv iota;
    try (vm_compute hex_value; cbv iota; vm_compute ascii_of_N);
    try (vm_compute unescape; cbv iota);
    rewrite IH; reflexivity.
Qed.

Lemma length_append (a b : string) :
  String.length (a ++ b) = (String.length a + String.length b)%nat.
Proof. induction a as [|c a IH]; cbn; [reflexivity | now rewrite IH]. Qed.

Lemma parse_value_quoted (fuel : nat) (s rest : string) :
  (0 < fuel)%nat ->
  parse_value fuel (quote s ++ rest) = Some (VStr s, rest).
Proof.
  intros F. destruct fuel as [|fuel]; [lia |].
  unfold quote. rewrite !append_assoc.
  change (dquote ++ quote_body s ++ dquote ++ rest)
    with (String "034" (quote_body s ++ String "034" rest)).
  cbn [parse_value skip_ws]. change (is_ws "034") with false. cbv iota.
  change (N_of_ascii "034" =? 34)%N with true. cbv iota.
  rewrite parse_quote_body. reflexivity.
Qed.

Section DecodeMembers.
Variable pv : string -> option (value * string).

Lemma parse_members_more (n : nat) (acc : list (string * value))
      (k : string) (v : value) (r2 r4 : string) :
  (0 < n)%nat ->
  pv r2 = Some (v, String "," r4) ->
  parse_members pv n acc (quote k ++ String ":" r2)
  = parse_members pv (pred n) (obj_set k v acc) r4.
Proof.
  intros F H. destruct n as [|n]; [lia |].
  unfold quote. rewrite !append_assoc.
  change (dquote ++ quote_body k ++ dquote ++ String ":" r2)
    with (String "034" (quote_body k ++ String "034" (String ":" r2))).
  cbn [parse_members skip_ws pred]. change (is_ws "034") with false. cbv iota.
  rewrite parse_quote_body. cbn [skip_ws]. change (is_ws ":") with false. cbv iota.
  rewrite H. cbn [skip_ws]. change (is_ws ",") with false. cbv iota.
  reflexivity.
Qed.

Lemma parse_members_last (n : nat) (acc : list (string * value))
      (k : string) (v : value) (r2 r4 : string) :
  (0 < n)%nat ->
  pv r2 = Some (v, String "}" r4) ->
  parse_members pv n acc (quote k ++ String ":" r2)
  = Some (VObj (obj_set k v acc), r4).
Proof.
  intros F H. destruct n as [|n]; [lia |].
  unfold quote. rewrite !append_assoc.
  change (dquote ++ quote_body k ++ dquote ++ String ":" r2)
    with (String "034" (quote_body k ++ String "034" (String ":" r2))).
  cbn [parse_members skip_ws]. change (is_ws "034") with false. cbv iota.
  rewrite parse_quote_body. cbn [skip_ws]. change (is_ws ":") with false. cbv iota.
  rewrite H. cbn [skip_ws]. change (is_ws "}") with false. cbv iota.
  reflexivity.
Qed.
End DecodeMembers.

Lemma parse_value_object (fuel : nat) (k r : string) :
  (0 < fuel)%nat ->
  parse_value fuel (String "{" (quote k ++ r))
  = parse_members (parse_value (pred fuel)) (String.length (quote k ++ r)) []
                  (quote k ++ r).
Proof.
  intros F. destruct fuel as [|fuel]; [lia |].
  cbn [parse_value skip_ws pred]. change (is_ws "{") with false. cbv iota.
  change (N_of_ascii "{" =? 34)%N with false.
  change (N_of_ascii "{" =? 123)%N with true. cbv iota.
  unfold quote at 1. rewrite !append_assoc.
  change (dquote ++ quote_body k ++ dquote ++ r)
    with (String "034" (quote_body k ++ dquote ++ r)).
  cbn [skip_ws]. change (is_ws "034") with false. cbv iota.
  unfold quote. rewrite !append_assoc. reflexivity.
Qed.

Ltac enough_fuel :=
  unfold quote, dquote;
  repeat (progress (cbn [String.length pred Nat.add append]; rewrite ?length_append));
  lia.

(** Read back, the frame sent to the agent holds the payload of the
    telephony frame, character for character. *)
Lemma decode_user_audio_chunk (payload : string) :
  parse_json (JSON_stringify [("user_audio_chunk", VStr payload)])
  = Some (VObj [("user_audio_chunk", VStr payload)]).
Proof.
  unfold JSON_stringify, parse_json. cbn [stringify join].
  rewrite !append_assoc.
  change ("{" ++ quote "user_audio_chunk" ++ ":" ++ quote payload ++ "}")
    with (String "{" (quote "user_audio_chunk" ++ String ":" (quote payload ++ "}"))).
  rewrite parse_value_object by lia.
  rewrite (parse_members_last _ _ [] "user_audio_chunk" (VStr payload)
             (quote payload ++ "}") "").
  - reflexivity.
  - enough_fuel.
  - apply parse_value_quoted. enough_fuel.
Qed.

(** And the frame sent to the telephony socket holds the stream identifier
    and the payload of the agent frame. *)
Lemma decode_media_frame (sid payload : string) :
  parse_json (JSON_stringify [("event", VStr "media"); ("streamSid", VStr sid);
                              ("media", VObj [("payload", VStr payload)])])
  = Some (VObj [("event", VStr "media"); ("streamSid", VStr sid);
                ("media", VObj [("payload", VStr payload)])]).
Proof.
  unfold JSON_stringify, parse_json. cbn [stringify join].
  rewrite !append_assoc.
  change ("{" ++ quote "event" ++ ":" ++ quote "media" ++ "," ++ quote "streamSid"
          ++ ":" ++ quote sid ++ "," ++ quote "media" ++ ":" ++ "{" ++ quote "payload"
          ++ ":" ++ quote payload ++ "}" ++ "}")
    with (String "{" (quote "event" ++ String ":" (quote "media" ++ String ","
            (quote "streamSid" ++ String ":" (quote sid ++ String ","
               (quote "media" ++ String ":" (String "{"
                  (quote "payload" ++ String ":" (quote payload ++ String "}" "}"))))))))).
  rewrite parse_value_object by lia.
  erewrite (parse_members_more _ _ [] "event" (VStr "media"));
    [| enough_fuel | apply parse_value_quoted; enough_fuel].
  erewrite (parse_members_more _ _ _ "streamSid" (VStr sid));
    [| enough_fuel | apply parse_value_quoted; enough_fuel].
  rewrite (parse_members_last _ _ _ "media" (VObj [("payload", VStr payload)]) _ "").
  - reflexivity.
  - enough_fuel.
  - rewrite parse_value_object by enough_fuel.
    rewrite (parse_members_last _ _ [] "payload" (VStr payload) _ "}").
    + reflexivity.
    + enough_fuel.
    + apply parse_value_quoted. enough_fuel.
Qed.

(** ** What a request can do to the registry *)

Section RegistrySteps.
Variable Twilio_new : value -> value -> outcome unit.

Lemma initiate_call_invalid (body : value) (uuid : string) (s : server) :
  valid_request body = false ->
  snd (fst (initiate_call Twilio_new body uuid s)) = s.
Proof.
  intros V. destruct body as [| |b|n|t|items|props];
    try (destruct b); try (destruct n); try (destruct t); try reflexivity.
  unfold valid_request in V. unfold initiate_call.
  change (js_or (VObj props) (VObj [])) with (VObj props).
  destruct (get_opt (VObj props) "serverUrl") as [| |b|n|url|items|ps] eqn:U;
    try (destruct b); try (destruct n); try reflexivity.
  rewrite normalize_serverUrl_string.
  destruct (url =? "") eqn:N; [apply String.eqb_eq in N; subst url; reflexivity |].
  cbv beta iota delta [lift bind]. cbn [truthy].
  rewrite (normalized_not_empty url (proj1 (String.eqb_neq _ _) N)).
  cbn [negb andb orb] in V |- *.
  destruct (truthy (get_opt (VObj props) "twilioAccountSid")); [| reflexivity].
  destruct (truthy (get_opt (VObj props) "twilioAuthToken")); [| reflexivity].
  destruct (truthy (get_opt (VObj props) "twilioPhoneNumber")); [| reflexivity].
  destruct (truthy (get_opt (VObj props) "elevenLabsApiKey")); [| reflexivity].
  destruct (truthy (get_opt (VObj props) "elevenLabsAgentId")); [| reflexivity].
  destruct (truthy (get_opt (VObj props) "zoomDialIn")); [| reflexivity].
  discriminate V.
Qed.

Lemma initiate_call_state (body : value) (uuid : string) (s : server) :
  snd (fst (initiate_call Twilio_new body uuid s))
  = if valid_request body
    then match get_opt body "serverUrl" with
         | VStr url => stored body url uuid s
         | _ => s
         end
    else s.
Proof.
  destruct (valid_request body) eqn:V.
  - destruct (valid_request_inv _ V) as (props & url & -> & U & _).
    rewrite U, (initiate_call_valid Twilio_new (VObj props) uuid url s V U).
    destruct (Twilio_new _ _); reflexivity.
  - now apply initiate_call_invalid.
Qed.

Lemma initiate_call_resume_state (sessionId : string) (created : outcome value)
      (s : server) :
  snd (fst (initiate_call_resume sessionId created s)) = s.
Proof.
  destruct created as [call|e]; [| reflexivity].
  unfold initiate_call_resume, try_catch, bind, lift.
  destruct (get call "sid"); reflexivity.
Qed.

Lemma hangup_call_state (body : value) (s : server) :
  snd (fst (hangup_call Twilio_new body s)) = s.
Proof.
  unfold hangup_call. destruct (negb _); [reflexivity |].
  unfold bind, get_state, try_catch, lift.
  destruct (sessionStore s) as [|[id x] rest]; [reflexivity |].
  destruct (Twilio_new _ _); reflexivity.
Qed.

Lemma call_twiml_state (sessionId : value) (s : server) :
  snd (fst (call_twiml sessionId s)) = s.
Proof.
  unfold call_twiml, bind, get_state, lift.
  destruct (Map_get _ _) as [x|]; [| reflexivity].
  destruct (replace_https_wss _); reflexivity.
Qed.

Lemma call_status_state (body : value) (s : server) :
  snd (fst (call_status body s)) = s.
Proof.
  unfold call_status, bind, lift.
  destruct (get body "CallStatus"); [| reflexivity].
  destruct (get body "CallSid"); reflexivity.
Qed.

Lemma media_stream_state (sessionId : value) (s : server) :
  snd (fst (media_stream sessionId s)) = s.
Proof.
  unfold media_stream, bind, get_state, log, emit.
  destruct (Map_get _ _); reflexivity.
Qed.

(** Only [POST /initiate-call] writes the registry, under the identifier
    it drew, and only the clock removes from it. *)
Lemma serve_cases (s : server) (r : request) :
  serve Twilio_new s r = s
  \/ (exists body url uuid, r = InitiateCall body uuid
                            /\ serve Twilio_new s r = stored body url uuid s)
  \/ (exists dt, r = Elapse dt /\ serve Twilio_new s r = elapse dt s).
Proof.
  destruct r as [body uuid|sessionId created|body|sessionId|body|sessionId|dt];
    cbn [serve].
  - rewrite initiate_call_state.
    destruct (valid_request body); [| now left].
    destruct (get_opt body "serverUrl") as [| | | |url| |]; try (now left).
    right; left. exists body, url, uuid. split; reflexivity.
  - left. apply initiate_call_resume_state.
  - left. apply hangup_call_state.
  - left. apply call_twiml_state.
  - left. apply call_status_state.
  - left. apply media_stream_state.
  - right; right. exists dt. split; reflexivity.
Qed.
End RegistrySteps.

(** ** Expiry *)

Lemma no_timer_spec (id : string) (s : server) :
  no_timer id s = true <-> forall d, ~ In (d, id) (timers s).
Proof.
  unfold no_timer. rewrite forallb_forall. split.
  - intros H d I. specialize (H _ I). cbn in H.
    now rewrite String.eqb_refl in H.
  - intros H [d k] I. cbn. apply negb_true_iff, String.eqb_neq.
    intros ->. exact (H d I).
Qed.

Lemma lookup_delete_none {A : Type} (k k0 : string) (m : Map A) :
  lookup k m = None -> lookup k (Map_delete k0 m) = None.
Proof.
  intros E. destruct (string_dec k0 k) as [->|N].
  - apply lookup_Map_delete_same.
  - now rewrite lookup_Map_delete_other.
Qed.

Lemma lookup_fold_delete_none {A : Type} (k : string) (l : list (N * string)) (m : Map A) :
  lookup k m = None ->
  lookup k (fold_left (fun m tm => Map_delete (snd tm) m) l m) = None.
Proof.
  revert m. induction l as [|tm l IH]; intros m E; [exact E |].
  cbn [fold_left]. apply IH. now apply lookup_delete_none.
Qed.

Lemma lookup_fold_delete_in {A : Type} (k : string) (d : N)
      (l : list (N * string)) (m : Map A) :
  In (d, k) l ->
  lookup k (fold_left (fun m tm => Map_delete (snd tm) m) l m) = None.
Proof.
  revert m. induction l as [|tm l IH]; intros m I; [destruct I |].
  cbn [fold_left]. destruct I as [-> | I].
  - apply lookup_fold_delete_none. apply lookup_Map_delete_same.
  - now apply IH.
Qed.

Lemma lookup_fold_delete_notin {A : Type} (k : string)
      (l : list (N * string)) (m : Map A) :
  (forall d, ~ In (d, k) l) ->
  lookup k (fold_left (fun m tm => Map_delete (snd tm) m) l m) = lookup k m.
Proof.
  revert m. induction l as [|[d0 k0] l IH]; intros m NI; [reflexivity |].
  cbn [fold_left snd]. rewrite IH.
  - apply lookup_Map_delete_other. intros ->. apply (NI d0). now left.
  - intros d I. apply (NI d). now right.
Qed.

Section Expiry.
Variable Twilio_new : value -> value -> outcome unit.
Variable id : string.
Variable x : session.
Variable due : N.

Lemma elapse_ttl_invariant (dt : N) (s : server) :
  ttl_invariant id x due s -> ttl_invariant id x due (elapse dt s).
Proof.
  intros (Only & Live & Dead). unfold elapse, fire_due, ttl_invariant.
  cbn [sessionStore timers now].
  split; [| split].
  - intros d I. apply filter_In in I. exact (Only d (proj1 I)).
  - intros Lt.
    assert (Lt0 : (now s < due)%N) by lia.
    destruct (Live Lt0) as [G P]. split.
    + rewrite lookup_fold_delete_notin; [exact G |].
      intros d I. apply filter_In in I. destruct I as [I Due].
      rewrite (Only d I) in Due. unfold is_due in Due. cbn in Due.
      apply N.leb_le in Due. lia.
    + apply filter_In. split; [exact P |].
      unfold is_due. cbn. apply negb_true_iff, N.leb_gt. exact Lt.
  - intros Ge. split.
    + destruct (N.lt_ge_cases (now s) due) as [Lt0 | Ge0].
      * destruct (Live Lt0) as [_ P].
        apply (lookup_fold_delete_in id due). apply filter_In.
        split; [exact P |]. unfold is_due. cbn. now apply N.leb_le.
      * apply lookup_fold_delete_none. exact (proj1 (Dead Ge0)).
    + intros d I. apply filter_In in I. destruct I as [I Due].
      rewrite (Only d I) in Due. unfold is_due in Due. cbn in Due.
      apply negb_true_iff, N.leb_gt in Due. lia.
Qed.

Lemma stored_ttl_invariant (body : value) (url uuid : string) (s : server) :
  uuid <> id ->
  ttl_invariant id x due s -> ttl_invariant id x due (stored body url uuid s).
Proof.
  intros NE (Only & Live & Dead). unfold stored, ttl_invariant.
  cbn [sessionStore timers now].
  assert (Old : forall d, In (d, id) (timers s ++ [((now s + 3600000)%N, uuid)])
                          -> In (d, id) (timers s)).
  { intros d I. apply in_app_or in I. destruct I as [I | [E | []]]; [exact I |].
    injection E as _ E. now destruct NE. }
  split; [| split].
  - intros d I. exact (Only d (Old d I)).
  - intros Lt. destruct (Live Lt) as [G P]. split.
    + now rewrite lookup_Map_set_other.
    + apply in_or_app. now left.
  - intros Ge. destruct (Dead Ge) as [G P]. split.
    + now rewrite lookup_Map_set_other.
    + intros d I. exact (P d (Old d I)).
Qed.

Lemma serve_ttl_invariant (s : server) (r : request) :
  never_draws id [r] = true ->
  ttl_invariant id x due s -> ttl_invariant id x due (serve Twilio_new s r).
Proof.
  intros ND I.
  destruct (serve_cases Twilio_new s r)
    as [E | [(body & url & uuid & -> & E) | (dt & -> & E)]]; rewrite E.
  - exact I.
  - apply stored_ttl_invariant; [| exact I].
    cbn in ND. rewrite andb_true_r in ND.
    now apply negb_true_iff, String.eqb_neq in ND.
  - now apply elapse_ttl_invariant.
Qed.

Lemma serve_now (s : server) (r : request) :
  now (serve Twilio_new s r)
  = (now s + match r with Elapse dt => dt | _ => 0 end)%N.
Proof.
  destruct (serve_cases Twilio_new s r)
    as [E | [(body & url & uuid & -> & E) | (dt & -> & E)]]; rewrite E.
  - destruct r; try (now rewrite N.add_0_r).
    cbn [serve] in E. rewrite <- E at 1. reflexivity.
  - cbn. now rewrite N.add_0_r.
  - reflexivity.
Qed.

Lemma serve_all_ttl_invariant (rs : list request) (s : server) :
  never_draws id rs = true ->
  ttl_invariant id x due s ->
  ttl_invariant id x due (serve_all Twilio_new s rs)
  /\ now (serve_all Twilio_new s rs) = (now s + elapsed rs)%N.
Proof.
  revert s. induction rs as [|r rs IH]; intros s ND I.
  - split; [exact I |]. cbn. now rewrite N.add_0_r.
  - cbn [never_draws forallb] in ND. apply andb_prop in ND. destruct ND as [ND1 ND2].
    assert (I1 : ttl_invariant id x due (serve Twilio_new s r)).
    { apply serve_ttl_invariant; [| exact I]. cbn. now rewrite ND1. }
    destruct (IH _ ND2 I1) as [I2 T2].
    change (serve_all Twilio_new s (r :: rs))
      with (serve_all Twilio_new (serve Twilio_new s r) rs).
    split; [exact I2 |].
    rewrite T2, serve_now. cbn [elapsed fold_right].
    destruct r; fold (elapsed rs); lia.
Qed.
End Expiry.

Lemma stored_starts_ttl (body : value) (url uuid : string) (s : server) :
  no_timer uuid s = true ->
  ttl_invariant uuid (session_of body (VStr (normalized url)))
                (now s + 3600000)%N (stored body url uuid s).
Proof.
  intros NT0. pose proof (proj1 (no_timer_spec uuid s) NT0) as NT.
  unfold stored, ttl_invariant.
  cbn [sessionStore timers now]. split; [| split].
  - intros d I. apply in_app_or in I. destruct I as [I | [E | []]].
    + now destruct (NT d).
    + now injection E.
  - intros _. split; [apply lookup_Map_set_same |].
    apply in_or_app. right. now left.
  - intros Ge. lia.
Qed.

(** C8: a session created at time T has its deletion scheduled for
    T + 3600000 ms; whatever requests arrive in between (reads of that
    session included), it is in the registry once 59 minutes have passed
    and gone once 61 minutes have passed. *)
Theorem session_expires_after_one_hour
        (Twilio_new : value -> value -> outcome unit)
        (body : value) (uuid : string) (s : server) (rs : list request) :
  valid_request body = true ->
  no_timer uuid s = true ->
  never_draws uuid rs = true ->
  let s1 := serve Twilio_new s (InitiateCall body uuid) in
  let s2 := serve_all Twilio_new s1 rs in
  exists x,
    Map_get (sessionStore s1) (VStr uuid) = Some x
    /\ In ((now s + 3600000)%N, uuid) (timers s1)
    /\ (elapsed rs = (59 * 60000)%N -> Map_get (sessionStore s2) (VStr uuid) = Some x)
    /\ (elapsed rs = (61 * 60000)%N -> Map_get (sessionStore s2) (VStr uuid) = None).
Proof.
  intros V NT ND s1 s2.
  destruct (valid_request_inv _ V) as (props & url & -> & U & _).
  assert (E1 : s1 = stored (VObj props) url uuid s).
  { unfold s1. cbn [serve]. now rewrite initiate_call_state, V, U. }
  pose proof (stored_starts_ttl (VObj props) url uuid s NT) as I1.
  rewrite <- E1 in I1.
  destruct (serve_all_ttl_invariant Twilio_new uuid _ _ rs s1 ND I1) as [(_ & Live & Dead) T].
  fold s2 in Live, Dead, T.
  assert (T1 : now s1 = now s) by (rewrite E1; reflexivity).
  exists (session_of (VObj props) (VStr (normalized url))).
  split; [rewrite E1; apply lookup_Map_set_same |].
  split; [rewrite E1; cbn; apply in_or_app; right; now left |].
  split; intros El; cbn [Map_get].
  - apply Live. lia.
  - apply Dead. lia.
Qed.

(** One session followed for 59 minutes, with reads and another session
    created in between, and for 61 minutes. *)
Lemma session_expires_after_one_hour_witness :
  exists x,
    Map_get (sessionStore server_6f1c) (VStr "6f1c") = Some x
    /\ Map_get (sessionStore
                  (serve_all Twilio_accepts server_6f1c
                     [CallTwiml (VStr "6f1c"); Elapse 1800000;
                      InitiateCall (body_with "other.example.com" VUndefined VUndefined)
                                   "9a2e";
                      MediaStream (VStr "6f1c"); Elapse 1740000]))
               (VStr "6f1c") = Some x
    /\ Map_get (sessionStore
                  (serve_all Twilio_accepts server_6f1c
                     [CallTwiml (VStr "6f1c"); Elapse 3600000; Elapse 60000]))
               (VStr "6f1c") = None.
Proof.
  destruct (session_expires_after_one_hour Twilio_accepts
              (body_with "bridge.example.com" VUndefined VUndefined) "6f1c" server_init
              [CallTwiml (VStr "6f1c"); Elapse 1800000;
               InitiateCall (body_with "other.example.com" VUndefined VUndefined) "9a2e";
               MediaStream (VStr "6f1c"); Elapse 1740000]
              eq_refl eq_refl eq_refl) as (x & G & _ & Alive & _).
  destruct (session_expires_after_one_hour Twilio_accepts
              (body_with "bridge.example.com" VUndefined VUndefined) "6f1c" server_init
              [CallTwiml (VStr "6f1c"); Elapse 3600000; Elapse 60000]
              eq_refl eq_refl eq_refl) as (x' & G' & _ & _ & Gone).
  exists x. split; [exact G |]. split; [exact (Alive eq_refl) | exact (Gone eq_refl)].
Defined.

(* ================================================================= *)
(** * Further properties *)

(** ** [POST /initiate-call]: rejections and failures *)

Lemma normalize_serverUrl_cases (raw u : value) :
  normalize_serverUrl raw = Ok u ->
  (truthy raw = false /\ u = raw)
  \/ (exists url, raw = VStr url /\ url <> "" /\ u = VStr (normalized url)).
Proof.
  unfold normalize_serverUrl. destruct (truthy raw) eqn:T.
  - destruct raw as [| |b|n|url|items|props]; cbn [startsWith]; try discriminate.
    intros E. injection E as <-. right. exists url. split; [reflexivity |].
    split.
    + cbn in T. now apply negb_true_iff, String.eqb_neq in T.
    + unfold normalized. destruct (prefix "http" url); reflexivity.
  - intros E. injection E as <-. left. split; reflexivity.
Qed.

Section InitiateCallRejections.
Variable Twilio_new : value -> value -> outcome unit.

(** X1: a request that lacks a required field (or has it empty), and
    whose callback address is a string or absent, is answered 400; nothing is
    stored, no deletion is scheduled, nothing is logged and the provider is
    not contacted. *)
Theorem missing_field_rejected (body : value) (uuid : string) (s : server) (u : value) :
  valid_request body = false ->
  normalize_serverUrl (get_opt body "serverUrl") = Ok u ->
  initiate_call Twilio_new body uuid s
  = (Ok (Replied (mkReply 400
           (Json (VObj [("error",
              VStr "All fields (except Meeting ID/Passcode) are required")])))),
     s, []).
Proof.
  intros V E. unfold initiate_call. rewrite E.
  cbv beta iota delta [lift bind].
  destruct (normalize_serverUrl_cases _ _ E) as [[T ->] | (url & U & N & ->)].
  - rewrite T. reflexivity.
  - unfold valid_request in V. rewrite U in V.
    rewrite (proj2 (String.eqb_neq _ _) N) in V. cbn [negb andb] in V.
    destruct body as [| | | | | |props]; try discriminate U.
    change (js_or (VObj props) (VObj [])) with (VObj props).
    cbn [truthy]. rewrite (normalized_not_empty url N). cbn [negb orb].
    destruct (truthy (get_opt (VObj props) "twilioAccountSid")); [| reflexivity].
    destruct (truthy (get_opt (VObj props) "twilioAuthToken")); [| reflexivity].
    destruct (truthy (get_opt (VObj props) "twilioPhoneNumber")); [| reflexivity].
    destruct (truthy (get_opt (VObj props) "elevenLabsApiKey")); [| reflexivity].
    destruct (truthy (get_opt (VObj props) "elevenLabsAgentId")); [| reflexivity].
    destruct (truthy (get_opt (VObj props) "zoomDialIn")); [| reflexivity].
    discriminate V.
Qed.

(** X2: a callback address that is truthy but not a string (a number, a
    boolean, an array, an object) makes the handler throw a [TypeError] at
    line 51, before validation: no 400 is sent, and nothing is stored or
    scheduled, whatever the other fields are. *)
Theorem non_string_callback_throws (body : value) (uuid : string) (s : server) :
  truthy (get_opt body "serverUrl") = true ->
  (forall url, get_opt body "serverUrl" <> VStr url) ->
  initiate_call Twilio_new body uuid s
  = (Throw (TypeError "serverUrl.startsWith is not a function"), s, []).
Proof.
  intros T NS. unfold initiate_call, normalize_serverUrl. rewrite T.
  destruct (get_opt body "serverUrl") as [| |b|n|url|items|props];
    try discriminate T; try reflexivity.
  now destruct (NS url).
Qed.

(** X3: when call placement fails, at the construction of the provider
    client or at [calls.create], the reply is 500 and carries the message,
    code and link of the error; the session that was stored stays in the
    registry (only its timer will remove it). *)
Theorem failed_placement_keeps_session
        (body : value) (uuid : string) (s : server) (e : js_error) :
  valid_request body = true ->
  (Twilio_new (get_opt body "twilioAccountSid") (get_opt body "twilioAuthToken")
   = Throw e ->
   exists s' x,
     initiate_call Twilio_new body uuid s
     = (Ok (Replied (mkReply 500
              (Json (VObj [("error", VStr "Failed to initiate call");
                           ("details", VStr (err_message e));
                           ("code", err_code e); ("moreInfo", err_moreInfo e)])))),
        s', [Log Error (err_message e)])
     /\ Map_get (sessionStore s') (VStr uuid) = Some x
     /\ In ((now s + 3600000)%N, uuid) (timers s'))
  /\ (forall s1,
        initiate_call_resume uuid (Throw e) s1
        = (Ok (mkReply 500
                 (Json (VObj [("error", VStr "Failed to initiate call");
                              ("details", VStr (err_message e));
                              ("code", err_code e); ("moreInfo", err_moreInfo e)]))),
           s1, [Log Error (err_message e)])).
Proof.
  intros V. split.
  - intros T.
    destruct (valid_request_inv _ V) as (props & url & -> & U & _).
    rewrite (initiate_call_valid Twilio_new (VObj props) uuid url s V U), T.
    exists (stored (VObj props) url uuid s),
           (session_of (VObj props) (VStr (normalized url))).
    split; [reflexivity |]. split.
    + apply lookup_Map_set_same.
    + cbn. apply in_or_app. right. now left.
  - intros s1. reflexivity.
Qed.
End InitiateCallRejections.

(** The dial-in number is missing. *)
Lemma missing_field_rejected_witness :
  initiate_call Twilio_accepts body_without_dial_in "6f1c" server_init
  = (Ok (Replied (mkReply 400
           (Json (VObj [("error",
              VStr "All fields (except Meeting ID/Passcode) are required")])))),
     server_init, []).
Proof.
  exact (missing_field_rejected Twilio_accepts body_without_dial_in "6f1c" server_init
           (VStr "https://bridge.example.com") eq_refl eq_refl).
Defined.

(** The callback address is the number 8080. *)
Lemma non_string_callback_throws_witness :
  initiate_call Twilio_accepts body_with_numeric_url "6f1c" server_init
  = (Throw (TypeError "serverUrl.startsWith is not a function"), server_init, []).
Proof.
  apply (non_string_callback_throws Twilio_accepts body_with_numeric_url "6f1c"
           server_init eq_refl).
  intros url. discriminate.
Defined.

(** The provider client refuses the credentials. *)
Lemma failed_placement_keeps_session_witness :
  exists s' x,
    initiate_call Twilio_refuses (body_with "bridge.example.com" VUndefined VUndefined)
                  "6f1c" server_init
    = (Ok (Replied (mkReply 500
             (Json (VObj [("error", VStr "Failed to initiate call");
                          ("details", VStr "accountSid must start with AC");
                          ("code", VUndefined); ("moreInfo", VUndefined)])))),
       s', [Log Error "accountSid must start with AC"])
    /\ Map_get (sessionStore s') (VStr "6f1c") = Some x
    /\ In (3600000%N, "6f1c") (timers s').
Proof.
  exact (proj1 (failed_placement_keeps_session Twilio_refuses
                  (body_with "bridge.example.com" VUndefined VUndefined) "6f1c"
                  server_init
                  (mkError "Error" "accountSid must start with AC" VUndefined VUndefined)
                  eq_refl) eq_refl).
Defined.

(** ** [POST /hangup-call] *)

Lemma Map_set_keeps_head {A : Type} (k k0 : string) (v v0 : A) (rest : Map A) :
  k0 <> k -> Map_set k v ((k0, v0) :: rest) = (k0, v0) :: Map_set k v rest.
Proof. intros N. cbn. now rewrite (proj2 (String.eqb_neq _ _) N). Qed.

Section Hangup.
Variable Twilio_new : value -> value -> outcome unit.

(** X4: [POST /hangup-call] answers 400 when [callSid] is missing or
    empty, and 404 when it is given but the registry is empty; in neither
    case is anything logged or the provider contacted, and in no case does
    the handler, before or after the provider's answer, change the
    registry: hanging up never removes a session. *)
Theorem hangup_call_replies (body : value) (s : server) :
  (truthy (get_opt (js_or body (VObj [])) "callSid") = false ->
   hangup_call Twilio_new body s
   = (Ok (HangupReplied (mkReply 400 (Json (VObj [("error", VStr "Call SID is required")])))),
      s, []))
  /\ (truthy (get_opt (js_or body (VObj [])) "callSid") = true ->
      sessionStore s = [] ->
      hangup_call Twilio_new body s
      = (Ok (HangupReplied (mkReply 404
               (Json (VObj [("error", VStr "No active session found")])))),
         s, []))
  /\ snd (fst (hangup_call Twilio_new body s)) = s
  /\ (forall callSid updated,
        snd (fst (hangup_call_resume callSid updated s)) = s).
Proof.
  split; [| split; [| split]].
  - intros T. unfold hangup_call. rewrite T. reflexivity.
  - intros T E. unfold hangup_call. rewrite T. cbn [negb].
    unfold bind, get_state. rewrite E. reflexivity.
  - apply hangup_call_state.
  - intros callSid [[]|e]; reflexivity.
Qed.

(** X5: the credentials used to hang up are those of the first session
    of the registry in insertion order, the oldest one still there, and not
    those of the call named by [callSid]: a session created later, under
    another identifier, changes nothing to what the handler does.  If the
    provider client accepts those credentials the handler goes on to the
    update; if it refuses them the answer is 500 with the error's message. *)
Theorem hangup_uses_oldest_session
        (hangup_body body : value) (uuid id0 : string) (x0 : session)
        (rest : Map session) (s : server) :
  sessionStore s = (id0, x0) :: rest ->
  uuid <> id0 ->
  truthy (get_opt (js_or hangup_body (VObj [])) "callSid") = true ->
  let s1 := serve Twilio_new s (InitiateCall body uuid) in
  fst (fst (hangup_call Twilio_new hangup_body s1))
  = fst (fst (hangup_call Twilio_new hangup_body s))
  /\ snd (hangup_call Twilio_new hangup_body s1)
     = snd (hangup_call Twilio_new hangup_body s)
  /\ (forall u, Twilio_new (twilioAccountSid x0) (twilioAuthToken x0) = Ok u ->
        fst (fst (hangup_call Twilio_new hangup_body s1))
        = Ok (AwaitUpdate (get_opt (js_or hangup_body (VObj [])) "callSid")))
  /\ (forall e, Twilio_new (twilioAccountSid x0) (twilioAuthToken x0) = Throw e ->
        hangup_call Twilio_new hangup_body s1
        = (Ok (HangupReplied (mkReply 500
                 (Json (VObj [("error", VStr "Failed to hang up call");
                              ("details", VStr (err_message e))])))),
           s1, [Log Error (err_message e)])).
Proof.
  intros E N T s1.
  assert (H1 : exists rest1, sessionStore s1 = (id0, x0) :: rest1).
  { unfold s1. cbn [serve]. rewrite initiate_call_state.
    destruct (valid_request body); [| now exists rest].
    destruct (get_opt body "serverUrl"); try (now exists rest).
    unfold stored. cbn [sessionStore]. rewrite E.
    rewrite Map_set_keeps_head by (intros ->; now destruct N).
    eexists. reflexivity. }
  destruct H1 as [rest1 E1].
  unfold hangup_call. rewrite T. cbn [negb].
  unfold bind, get_state, try_catch, lift. rewrite E, E1.
  destruct (Twilio_new (twilioAccountSid x0) (twilioAuthToken x0)) as [u|e];
    repeat split; try reflexivity.
  - intros e H. discriminate H.
  - intros u0 H. discriminate H.
  - intros e0 H. injection H as <-. reflexivity.
Qed.
End Hangup.

(** No [callSid]; then a [callSid] on an empty registry. *)
Lemma hangup_call_replies_witness :
  hangup_call Twilio_accepts (VObj []) server_6f1c
  = (Ok (HangupReplied (mkReply 400 (Json (VObj [("error", VStr "Call SID is required")])))),
     server_6f1c, [])
  /\ hangup_call Twilio_accepts (VObj [("callSid", VStr "CA77")]) server_init
     = (Ok (HangupReplied (mkReply 404
              (Json (VObj [("error", VStr "No active session found")])))),
        server_init, []).
Proof.
  split.
  - exact (proj1 (hangup_call_replies Twilio_accepts (VObj []) server_6f1c) eq_refl).
  - exact (proj1 (proj2 (hangup_call_replies Twilio_accepts
                           (VObj [("callSid", VStr "CA77")]) server_init))
             eq_refl eq_refl).
Defined.

(** Two sessions; the provider accepts only the credentials of the first:
    the hang-up goes through, on the first session's account. *)
Lemma hangup_uses_oldest_session_witness :
  fst (fst (hangup_call Twilio_accepts_AC0123 (VObj [("callSid", VStr "CA77")])
                        (serve Twilio_accepts_AC0123 server_6f1c
                           (InitiateCall body_other "9a2e"))))
  = Ok (AwaitUpdate (VStr "CA77")).
Proof.
  refine (proj1 (proj2 (proj2 (hangup_uses_oldest_session Twilio_accepts_AC0123
                   (VObj [("callSid", VStr "CA77")]) body_other
                   "9a2e" "6f1c" _ [] server_6f1c eq_refl _ eq_refl))) tt eq_refl).
  discriminate.
Defined.

(** ** One session, three requests *)




(** ** Normalization and status callbacks *)

(** X7: normalizing twice is normalizing once: the address that lines
    50-53 produce is left unchanged by them. *)
Theorem normalize_serverUrl_idempotent (raw u : value) :
  normalize_serverUrl raw = Ok u -> normalize_serverUrl u = Ok u.
Proof.
  intros E. destruct (normalize_serverUrl_cases _ _ E) as [[T ->] | (url & -> & N & ->)].
  - unfold normalize_serverUrl. now rewrite T.
  - rewrite normalize_serverUrl_string.
    rewrite (normalized_not_empty url N).
    unfold normalized. destruct (prefix "http" url) eqn:P; [now rewrite P | reflexivity].
Qed.

(** An address without a scheme. *)
Lemma normalize_serverUrl_idempotent_witness :
  normalize_serverUrl (VStr "https://bridge.example.com")
  = Ok (VStr "https://bridge.example.com").
Proof.
  exact (normalize_serverUrl_idempotent (VStr "bridge.example.com")
           (VStr "https://bridge.example.com") eq_refl).
Defined.



(** ** The bridge: what is never done *)

Lemma readyState_eqb_OPEN (r : readyState) : readyState_eqb r OPEN = true -> r = OPEN.
Proof. destruct r; (reflexivity || discriminate). Qed.

Lemma strict_eq_str_true (v : value) (s : string) :
  strict_eq_str v s = true -> v = VStr s.
Proof.
  destruct v; cbn; try discriminate. intros E. apply String.eqb_eq in E. now subst.
Qed.

Ltac pick_effect I :=
  cbn [In] in I;
  repeat (destruct I as [I | I]; [try discriminate I |]);
  try contradiction.

Section BridgeNever.
Variable JSON_parse : string -> option value.

Lemma agent_message_effects (data : string) (b : bridge) (e : effect) :
  In e (snd (on_elevenLabs_message JSON_parse data b)) ->
  is_agent_call e = false /\ e <> TwilioClose.
Proof.
  split_handler; intros I; pick_effect I; subst e; split; (reflexivity || discriminate).
Qed.

Lemma twilio_message_effects (message : string) (b : bridge) (e : effect) :
  In e (snd (on_twilio_message JSON_parse message b)) ->
  (is_agent_call e = true -> elevenLabsWs b = OPEN) /\ e <> TwilioClose
  /\ (forall t, e <> TwilioSend t).
Proof.
  split_handler; intros I; pick_effect I; subst e;
    (split; [| split; [discriminate | intros t; discriminate]]);
    intros C; try discriminate C;
    match goal with
    | H : _ && readyState_eqb _ OPEN = true |- _ =>
        apply andb_prop in H; exact (readyState_eqb_OPEN _ (proj2 H))
    | H : readyState_eqb _ OPEN = true |- _ => exact (readyState_eqb_OPEN _ H)
    end.
Qed.

Lemma deliver_agent_call_open (ev : event) (b : bridge) (e : effect) :
  In e (snd (deliver JSON_parse ev b)) ->
  is_agent_call e = true ->
  elevenLabsWs b = OPEN.
Proof.
  destruct ev as [|data|error|code reason|message|]; cbn [deliver].
  - intros I C. cbn in I. pick_effect I. subst e. discriminate C.
  - intros I C. destruct (agent_message_effects data b e I) as [N _].
    rewrite N in C. discriminate C.
  - intros I C. cbn in I. pick_effect I. subst e. discriminate C.
  - intros I C. cbn in I. pick_effect I. subst e. discriminate C.
  - intros I C. exact (proj1 (twilio_message_effects message b e I) C).
  - destruct b as [sid ws flag tw]. destruct ws; intros I C; cbn in I; pick_effect I;
      subst e; (reflexivity || discriminate C).
Qed.

(** X9: the bridge calls [send] or [close] on the agent socket only
    while that socket is open: whatever event arrives in whatever state,
    such a call is made only if [readyState] was [OPEN] when the listener
    ran.  (So [send] is never called on a connecting socket, where [ws]
    would throw.) *)
Theorem agent_calls_only_when_open (ev : event) (b : bridge) (e : effect) :
  In e (snd (deliver JSON_parse ev b)) ->
  is_agent_call e = true ->
  elevenLabsWs b = OPEN.
Proof. exact (deliver_agent_call_open ev b e). Qed.

(** X10: no listener of a bridge ever calls [close()] on the telephony
    socket: over any sequence of events, from any state, the trace holds no
    such call. *)
Theorem telephony_socket_never_closed_by_bridge (evs : list event) (b : bridge) :
  ~ In TwilioClose (trace JSON_parse b evs).
Proof.
  revert b. induction evs as [|ev evs IH]; intros b I; [exact I |].
  cbn [trace] in I. apply in_app_or in I. destruct I as [I | I]; [| exact (IH _ I)].
  destruct ev as [|data|error|code reason|message|]; cbn [deliver] in I.
  - cbn in I. pick_effect I.
  - now destruct (proj2 (agent_message_effects data b _ I)).
  - cbn in I. pick_effect I.
  - cbn in I. pick_effect I.
  - now destruct (proj1 (proj2 (twilio_message_effects message b _ I))).
  - destruct b as [sid ws flag tw]. destruct ws; cbn in I; pick_effect I.
Qed.

Lemma deliver_stays_not_open (ev : event) (b : bridge) :
  is_agent_open ev = false ->
  elevenLabsWs b <> OPEN ->
  elevenLabsWs (state_after (deliver JSON_parse ev b)) <> OPEN.
Proof.
  intros NO W. destruct ev as [|data|error|code reason|message|]; cbn [deliver].
  - discriminate NO.
  - now rewrite (proj1 (on_elevenLabs_message_state JSON_parse data b)).
  - discriminate.
  - discriminate.
  - destruct (on_twilio_message_state JSON_parse message b)
      as [_ [E | [[_ [sid E]] | [E _]]]].
    + now rewrite E.
    + rewrite E. exact W.
    + now destruct W.
  - destruct b as [sid ws flag tw]. destruct ws; cbn; discriminate.
Qed.

(** X11: once the agent socket is not open (still connecting, closing
    after a [stop] frame or a telephony close, or closed), nothing is sent
    to it and [close()] is not called on it again, whatever frames arrive,
    until an ['open'] event. *)
Theorem agent_silent_until_open (evs : list event) (b : bridge) :
  elevenLabsWs b <> OPEN ->
  forallb (fun ev => negb (is_agent_open ev)) evs = true ->
  forallb (fun e => negb (is_agent_call e)) (trace JSON_parse b evs) = true.
Proof.
  revert b. induction evs as [|ev evs IH]; intros b W NO; [reflexivity |].
  cbn [forallb] in NO. apply andb_prop in NO. destruct NO as [N1 N2].
  apply negb_true_iff in N1.
  cbn [trace]. rewrite forallb_app. apply andb_true_intro. split.
  - apply forallb_forall. intros e I. apply negb_true_iff.
    destruct (is_agent_call e) eqn:C; [| reflexivity].
    now destruct (W (deliver_agent_call_open ev b e I C)).
  - apply IH; [| exact N2]. now apply deliver_stays_not_open.
Qed.
End BridgeNever.

(** A [stop] frame closes the open agent socket. *)
Lemma agent_calls_only_when_open_witness :
  In AgentClose (snd (deliver parse_json (TwilioMessage (js "{'event':'stop'}"))
                              bridge_streaming))
  /\ elevenLabsWs bridge_streaming = OPEN.
Proof.
  assert (I : In AgentClose
                 (snd (deliver parse_json (TwilioMessage (js "{'event':'stop'}"))
                               bridge_streaming))) by (right; left; reflexivity).
  split; [exact I |].
  exact (agent_calls_only_when_open parse_json
           (TwilioMessage (js "{'event':'stop'}")) bridge_streaming AgentClose I eq_refl).
Defined.

(** After the [stop] frame, media frames and a second [stop] reach nothing. *)
Lemma agent_silent_until_open_witness :
  forallb (fun e => negb (is_agent_call e))
          (trace parse_json
                 (run parse_json bridge_streaming [TwilioMessage (js "{'event':'stop'}")])
                 [TwilioMessage media_abc; TwilioMessage (js "{'event':'stop'}");
                  TwilioClosed; AgentClosed 1000 "done"])
  = true.
Proof.
  apply (agent_silent_until_open parse_json
           [TwilioMessage media_abc; TwilioMessage (js "{'event':'stop'}");
            TwilioClosed; AgentClosed 1000 "done"]
           (run parse_json bridge_streaming [TwilioMessage (js "{'event':'stop'}")])).
  - discriminate.
  - reflexivity.
Defined.

(** ** The bridge: what crosses, and what does not *)

Section BridgeCrossing.
Variable JSON_parse : string -> option value.

(** X12: the only thing that makes the bridge send to the telephony
    socket is an agent frame of type [audio] with a truthy
    [audio_event.audio_base_64]; what is sent is then the [media] frame
    for that payload under the current [streamSid].  A [ping] is not
    answered, [conversation_initiation_metadata] is only logged, and
    telephony frames, opens, errors and closes send nothing there. *)
Theorem only_agent_audio_reaches_telephony
        (ev : event) (b : bridge) (text : string) :
  In (TwilioSend text) (snd (deliver JSON_parse ev b)) ->
  exists data message audio_event payload,
    ev = AgentMessage data
    /\ JSON_parse data = Some message
    /\ get message "type" = Ok (VStr "audio")
    /\ get message "audio_event" = Ok audio_event
    /\ get audio_event "audio_base_64" = Ok payload
    /\ truthy payload = true
    /\ text = JSON_stringify [("event", VStr "media"); ("streamSid", streamSid b);
                               ("media", VObj [("payload", payload)])].
Proof.
  destruct ev as [|data|error|code reason|message|]; cbn [deliver].
  - intros I. cbn in I. pick_effect I.
  - intros I. exists data. revert I.
    split_handler; intros I; pick_effect I;
    injection I as <-;
    repeat match goal with
           | H : strict_eq_str _ _ = true |- _ => apply strict_eq_str_true in H; subst
           end;
    match goal with
    | H1 : get ?m "audio_event" = Ok ?ae, H2 : get ?ae "audio_base_64" = Ok ?p |- _ =>
        exists m, ae, p
    end;
    repeat split; try assumption; try reflexivity;
    match goal with
    | H : get ?ae "audio_base_64" = Ok ?p, T : truthy (get_opt ?ae "audio_base_64") = true
      |- truthy ?p = true => now rewrite (get_Ok_get_opt _ _ _ H) in T
    end.
  - intros I. cbn in I. pick_effect I.
  - intros I. cbn in I. pick_effect I.
  - intros I. now destruct (proj2 (proj2 (twilio_message_effects JSON_parse message b _ I)) text).
  - destruct b as [sid ws flag tw]. destruct ws; intros I; cbn in I; pick_effect I.
Qed.

(** X13: the only thing that makes the bridge send to the agent socket
    is a telephony frame with [event] [media] whose [media.payload] can be
    read, arriving while the agent socket is open; what is sent is then
    [{user_audio_chunk: payload}].  [start], [stop] and unknown events, and
    everything the agent itself sends, are never forwarded to the agent. *)
Theorem only_telephony_media_reaches_agent
        (ev : event) (b : bridge) (text : string) :
  In (AgentSend text) (snd (deliver JSON_parse ev b)) ->
  exists message data media payload,
    ev = TwilioMessage message
    /\ JSON_parse message = Some data
    /\ get data "event" = Ok (VStr "media")
    /\ get data "media" = Ok media
    /\ get media "payload" = Ok payload
    /\ elevenLabsWs b = OPEN
    /\ text = JSON_stringify [("user_audio_chunk", payload)].
Proof.
  destruct ev as [|data|error|code reason|message|]; cbn [deliver].
  - intros I. cbn in I. pick_effect I.
  - intros I. destruct (agent_message_effects JSON_parse data b _ I) as [C _].
    discriminate C.
  - intros I. cbn in I. pick_effect I.
  - intros I. cbn in I. pick_effect I.
  - intros I. exists message. revert I.
    split_handler; intros I; pick_effect I;
    injection I as <-;
    repeat match goal with
           | H : strict_eq_str _ _ = true |- _ => apply strict_eq_str_true in H; subst
           end;
    match goal with
    | H1 : get ?d "media" = Ok ?m, H2 : get ?m "payload" = Ok ?p |- _ =>
        exists d, m, p
    end;
    repeat split; try assumption; try reflexivity;
    match goal with
    | H : _ && readyState_eqb _ OPEN = true |- _ =>
        apply andb_prop in H; exact (readyState_eqb_OPEN _ (proj2 H))
    end.
  - destruct b as [sid ws flag tw]. destruct ws; intros I; cbn in I; pick_effect I.
Qed.

(** X14: [streamSid] holds the identifier of the latest [start] frame: a
    later [start] replaces the earlier one, and nothing else changes it. *)
Theorem latest_start_wins
        (b0 : bridge) (evs1 evs2 : list event) (start_frame : string)
        (data start sid : value) :
  JSON_parse start_frame = Some data ->
  get data "event" = Ok (VStr "start") ->
  get data "start" = Ok start ->
  get start "streamSid" = Ok sid ->
  forallb (fun ev => negb (is_start JSON_parse ev)) evs2 = true ->
  streamSid (run JSON_parse b0 (evs1 ++ TwilioMessage start_frame :: evs2)) = sid.
Proof.
  intros P E S I NS. unfold run. rewrite fold_left_app. cbn [fold_left].
  fold (run JSON_parse b0 evs1).
  change (fold_left (fun st ev => state_after (deliver JSON_parse ev st)) evs2
            (state_after (deliver JSON_parse (TwilioMessage start_frame)
                                  (run JSON_parse b0 evs1))))
    with (run JSON_parse
              (state_after (on_twilio_message JSON_parse start_frame
                                              (run JSON_parse b0 evs1))) evs2).
  rewrite (run_keeps_streamSid JSON_parse evs2 _ NS).
  rewrite (on_twilio_message_start JSON_parse start_frame data start sid _ P E S I).
  reflexivity.
Qed.

(** X15: no event makes a listener throw, whatever the frame decodes to;
    and a frame that decodes but cannot be handled costs one error line and
    nothing else, like an undecodable one: the frame [null] on either
    socket, a [start] frame without a [start] member (the earlier
    [streamSid] stays), and a [media] frame without a [media] member that
    arrives while the agent socket is open (nothing is sent). *)
Theorem frame_errors_contained (b : bridge) (frame : string) (data : value) :
  (forall ev, fst (fst (deliver JSON_parse ev b)) = Ok tt)
  /\ (JSON_parse frame = Some VNull ->
      on_twilio_message JSON_parse frame b
      = (Ok tt, b, [Log Error "Error parsing Twilio message:"])
      /\ on_elevenLabs_message JSON_parse frame b
         = (Ok tt, b, [Log Error "Error parsing ElevenLabs message:"]))
  /\ (JSON_parse frame = Some data ->
      get data "event" = Ok (VStr "start") ->
      get data "start" = Ok VUndefined ->
      on_twilio_message JSON_parse frame b
      = (Ok tt, b, [Log Error "Error parsing Twilio message:"]))
  /\ (JSON_parse frame = Some data ->
      get data "event" = Ok (VStr "media") ->
      get data "media" = Ok VUndefined ->
      isElevenLabsConnected b = true -> elevenLabsWs b = OPEN ->
      on_twilio_message JSON_parse frame b
      = (Ok tt, b, [Log Error "Error parsing Twilio message:"])).
Proof.
  split; [| split; [| split]].
  - intros ev. apply deliver_never_throws.
  - intros P. unfold on_twilio_message, on_elevenLabs_message, handleElevenLabsMessage,
      try_catch, bind, lift, get_state, JSON_parse_or_throw.
    rewrite P. split; reflexivity.
  - intros P E S. run_handler. rewrite P, E. run_handler.
    cbn [strict_eq_str String.eqb Ascii.eqb Bool.eqb]. rewrite S. reflexivity.
  - intros P E M F W. run_handler. rewrite P, E. run_handler.
    cbn [strict_eq_str String.eqb Ascii.eqb Bool.eqb]. rewrite F, W, M. reflexivity.
Qed.

Lemma agent_messages_keep_state (datas : list string) (b : bridge) :
  run JSON_parse b (map AgentMessage datas) = b
  /\ forallb (fun e => negb (is_agent_call e))
             (trace JSON_parse b (map AgentMessage datas)) = true.
Proof.
  induction datas as [|data datas [IH1 IH2]]; [split; reflexivity |].
  cbn [map]. split.
  - change (run JSON_parse b (AgentMessage data :: map AgentMessage datas))
      with (run JSON_parse (state_after (on_elevenLabs_message JSON_parse data b))
                (map AgentMessage datas)).
    now rewrite (proj1 (on_elevenLabs_message_state JSON_parse data b)).
  - cbn [trace deliver]. rewrite forallb_app.
    rewrite (proj1 (on_elevenLabs_message_state JSON_parse data b)), IH2, andb_true_r.
    apply forallb_forall. intros e I.
    now rewrite (proj1 (agent_message_effects JSON_parse data b e I)).
Qed.

(** X16: if the telephony socket closes while the agent socket is still
    connecting, the agent socket is not closed (the listener closes it only
    when it is open); it opens afterwards and stays open however many
    frames the agent sends: the bridge never calls [close()] on it. *)
Theorem early_telephony_close_leaves_agent_open (datas : list string) :
  elevenLabsWs (run JSON_parse bridge_init
                    (TwilioClosed :: AgentOpen :: map AgentMessage datas)) = OPEN
  /\ twilioSocket (run JSON_parse bridge_init
                       (TwilioClosed :: AgentOpen :: map AgentMessage datas)) = CLOSED
  /\ forallb (fun e => negb (is_agent_call e))
             (trace JSON_parse bridge_init
                    (TwilioClosed :: AgentOpen :: map AgentMessage datas)) = true.
Proof.
  change (run JSON_parse bridge_init (TwilioClosed :: AgentOpen :: map AgentMessage datas))
    with (run JSON_parse (mkBridge VNull OPEN true CLOSED) (map AgentMessage datas)).
  destruct (agent_messages_keep_state datas (mkBridge VNull OPEN true CLOSED)) as [E T].
  rewrite E. split; [reflexivity |]. split; [reflexivity |].
  change (trace JSON_parse bridge_init
                (TwilioClosed :: AgentOpen :: map AgentMessage datas))
    with ([Log Info "Twilio media stream disconnected"; Log Info "Connected to ElevenLabs"]
          ++ trace JSON_parse (mkBridge VNull OPEN true CLOSED) (map AgentMessage datas))%list.
  rewrite forallb_app, T. reflexivity.
Qed.
End BridgeCrossing.

(** The agent's audio on the streaming bridge. *)
Lemma only_agent_audio_reaches_telephony_witness :
  exists data message audio_event payload,
    AgentMessage audio_xyz = AgentMessage data
    /\ parse_json data = Some message
    /\ get message "type" = Ok (VStr "audio")
    /\ get message "audio_event" = Ok audio_event
    /\ get audio_event "audio_base_64" = Ok payload
    /\ truthy payload = true
    /\ js "{'event':'media','streamSid':'S1','media':{'payload':'xyz'}}"
       = JSON_stringify [("event", VStr "media"); ("streamSid", streamSid bridge_streaming);
                         ("media", VObj [("payload", payload)])].
Proof.
  apply (only_agent_audio_reaches_telephony parse_json (AgentMessage audio_xyz)
           bridge_streaming).
  left. reflexivity.
Defined.

(** A telephony media frame on the streaming bridge. *)
Lemma only_telephony_media_reaches_agent_witness :
  exists message data media payload,
    TwilioMessage media_abc = TwilioMessage message
    /\ parse_json message = Some data
    /\ get data "event" = Ok (VStr "media")
    /\ get data "media" = Ok media
    /\ get media "payload" = Ok payload
    /\ elevenLabsWs bridge_streaming = OPEN
    /\ js "{'user_audio_chunk':'abc'}" = JSON_stringify [("user_audio_chunk", payload)].
Proof.
  apply (only_telephony_media_reaches_agent parse_json (TwilioMessage media_abc)
           bridge_streaming).
  left. reflexivity.
Defined.

(** Two [start] frames with other traffic around them. *)
Lemma latest_start_wins_witness :
  streamSid (run parse_json bridge_init
                 ([TwilioMessage start_S1; AgentOpen]
                  ++ TwilioMessage (js "{'event':'start','start':{'streamSid':'S2'}}")
                  :: [TwilioMessage media_abc; AgentMessage audio_xyz]))
  = VStr "S2".
Proof.
  exact (latest_start_wins parse_json bridge_init [TwilioMessage start_S1; AgentOpen]
           [TwilioMessage media_abc; AgentMessage audio_xyz]
           (js "{'event':'start','start':{'streamSid':'S2'}}") _ _ (VStr "S2")
           eq_refl eq_refl eq_refl eq_refl eq_refl).
Defined.

(** The frame [null], a [start] frame without [start] and a [media] frame
    without [media] on the streaming bridge. *)
Lemma frame_errors_contained_witness :
  on_twilio_message parse_json "null" bridge_streaming
  = (Ok tt, bridge_streaming, [Log Error "Error parsing Twilio message:"])
  /\ on_twilio_message parse_json (js "{'event':'start'}") bridge_streaming
     = (Ok tt, bridge_streaming, [Log Error "Error parsing Twilio message:"])
  /\ on_twilio_message parse_json (js "{'event':'media'}") bridge_streaming
     = (Ok tt, bridge_streaming, [Log Error "Error parsing Twilio message:"]).
Proof.
  split; [| split].
  - exact (proj1 (proj1 (proj2 (frame_errors_contained parse_json bridge_streaming
                                  "null" VNull)) eq_refl)).
  - exact (proj1 (proj2 (proj2 (frame_errors_contained parse_json bridge_streaming
                                  (js "{'event':'start'}") _))) eq_refl eq_refl eq_refl).
  - exact (proj2 (proj2 (proj2 (frame_errors_contained parse_json bridge_streaming
                                  (js "{'event':'media'}") _))) eq_refl eq_refl eq_refl
             eq_refl eq_refl).
Defined.

(** ** The registry over time *)

Lemma lookup_fold_delete_some {A : Type} (k : string) (x : A)
      (l : list (N * string)) (m : Map A) :
  lookup k (fold_left (fun m tm => Map_delete (snd tm) m) l m) = Some x ->
  lookup k m = Some x /\ forall d, ~ In (d, k) l.
Proof.
  intros E.
  assert (NI : forall d, ~ In (d, k) l).
  { intros d I. rewrite (lookup_fold_delete_in k d l m I) in E. discriminate E. }
  split; [| exact NI]. now rewrite lookup_fold_delete_notin in E.
Qed.

Section RegistryOverTime.
Variable Twilio_new : value -> value -> outcome unit.

(** X17: sessions are independent, and only time removes them: a request
    other than a lapse of time, and other than an initiate-call that draws
    the same identifier, leaves what the registry holds under an identifier
    exactly as it was: hanging up, fetching the instructions, opening or
    losing the media stream and creating other sessions neither delete nor
    alter a session. *)
Theorem session_untouched_by_other_requests (id : string) (r : request) (s : server) :
  never_draws id [r] = true ->
  (forall dt, r <> Elapse dt) ->
  Map_get (sessionStore (serve Twilio_new s r)) (VStr id)
  = Map_get (sessionStore s) (VStr id).
Proof.
  intros ND NE.
  destruct (serve_cases Twilio_new s r)
    as [E | [(body & url & uuid & -> & E) | (dt & -> & E)]].
  - now rewrite E.
  - rewrite E. cbn [stored sessionStore Map_get]. apply lookup_Map_set_other.
    cbn in ND. rewrite andb_true_r in ND.
    now apply negb_true_iff, String.eqb_neq in ND.
  - now destruct (NE dt).
Qed.

(** X18: the lifetime of a session is exactly 3 600 000 ms of the
    process clock: it is in the registry as long as less than that has
    elapsed since its creation, and gone from the lapse of time that reaches
    it, whatever else is requested meanwhile. *)
Theorem session_lifetime_is_exactly_one_hour
        (body : value) (uuid : string) (s : server) (rs : list request) :
  valid_request body = true ->
  no_timer uuid s = true ->
  never_draws uuid rs = true ->
  let s1 := serve Twilio_new s (InitiateCall body uuid) in
  let s2 := serve_all Twilio_new s1 rs in
  ((elapsed rs < 3600000)%N ->
   Map_get (sessionStore s2) (VStr uuid) = Map_get (sessionStore s1) (VStr uuid)
   /\ Map_get (sessionStore s2) (VStr uuid) <> None)
  /\ ((3600000 <= elapsed rs)%N -> Map_get (sessionStore s2) (VStr uuid) = None).
Proof.
  intros V NT ND s1 s2.
  destruct (valid_request_inv _ V) as (props & url & -> & U & _).
  assert (E1 : s1 = stored (VObj props) url uuid s).
  { unfold s1. cbn [serve]. now rewrite initiate_call_state, V, U. }
  pose proof (stored_starts_ttl (VObj props) url uuid s NT) as I1.
  rewrite <- E1 in I1.
  destruct (serve_all_ttl_invariant Twilio_new uuid _ _ rs s1 ND I1)
    as [(_ & Live & Dead) T].
  fold s2 in Live, Dead, T.
  assert (T1 : now s1 = now s) by (rewrite E1; reflexivity).
  assert (G1 : Map_get (sessionStore s1) (VStr uuid)
               = Some (session_of (VObj props) (VStr (normalized url)))).
  { rewrite E1. apply lookup_Map_set_same. }
  split; intros El; cbn [Map_get].
  - assert (L : (now s2 < now s + 3600000)%N) by lia.
    cbn [Map_get] in G1. rewrite G1, (proj1 (Live L)). split; [reflexivity | discriminate].
  - apply Dead. lia.
Qed.

Lemma stored_expiry_pending (body : value) (url uuid : string) (s : server) :
  expiry_pending s -> expiry_pending (stored body url uuid s).
Proof.
  intros I id x G. unfold stored in *. cbn [sessionStore timers now] in *.
  destruct (string_dec uuid id) as [-> | NE].
  - exists (now s + 3600000)%N. split; [apply in_or_app; right; now left | lia].
  - rewrite lookup_Map_set_other in G by exact NE.
    destruct (I id x G) as (d & P & B). exists d. split; [| exact B].
    apply in_or_app. now left.
Qed.

Lemma elapse_expiry_pending (dt : N) (s : server) :
  expiry_pending s -> expiry_pending (elapse dt s).
Proof.
  intros I id x G. unfold elapse, fire_due in *. cbn [sessionStore timers now] in *.
  apply lookup_fold_delete_some in G. destruct G as [G ND].
  destruct (I id x G) as (d & P & B1 & B2).
  assert (NDue : is_due (now s + dt) (d, id) = false).
  { destruct (is_due (now s + dt) (d, id)) eqn:D; [| reflexivity].
    destruct (ND d). apply filter_In. now split. }
  exists d. split.
  - apply filter_In. split; [exact P | now rewrite NDue].
  - unfold is_due in NDue. cbn in NDue. apply N.leb_gt in NDue. lia.
Qed.

Lemma serve_expiry_pending (r : request) (s : server) :
  expiry_pending s -> expiry_pending (serve Twilio_new s r).
Proof.
  intros I.
  destruct (serve_cases Twilio_new s r)
    as [E | [(body & url & uuid & -> & E) | (dt & -> & E)]]; rewrite E.
  - exact I.
  - now apply stored_expiry_pending.
  - now apply elapse_expiry_pending.
Qed.

Lemma reachable_expiry_pending (rs : list request) :
  expiry_pending (serve_all Twilio_new server_init rs).
Proof.
  assert (G : forall s, expiry_pending s -> expiry_pending (serve_all Twilio_new s rs)).
  { induction rs as [|r rs IH]; intros s I; [exact I |].
    apply (IH (serve Twilio_new s r)). now apply serve_expiry_pending. }
  apply G. intros id x L. discriminate L.
Qed.

(** X19: no session is ever in the registry without its deletion
    pending: in every state the process can reach from an empty registry,
    each stored session has a [setTimeout] callback for its identifier that
    is due later than now and at most one hour from now. *)
Theorem every_session_has_pending_expiry (rs : list request) (id : string) (x : session) :
  lookup id (sessionStore (serve_all Twilio_new server_init rs)) = Some x ->
  exists d,
    In (d, id) (timers (serve_all Twilio_new server_init rs))
    /\ (now (serve_all Twilio_new server_init rs) < d)%N
    /\ (d <= now (serve_all Twilio_new server_init rs) + 3600000)%N.
Proof. exact (reachable_expiry_pending rs id x). Qed.

(** X20: an hour without new sessions empties the registry: from any
    state the process can reach, once 3 600 000 ms or more pass at one
    stretch, no session is left. *)
Theorem idle_hour_empties_registry (rs : list request) (dt : N) :
  (3600000 <= dt)%N ->
  sessionStore (elapse dt (serve_all Twilio_new server_init rs)) = [].
Proof.
  intros H. pose proof (reachable_expiry_pending rs) as I.
  set (s := serve_all Twilio_new server_init rs) in *.
  destruct (sessionStore (elapse dt s)) as [|[id x] rest] eqn:E; [reflexivity |].
  assert (G : lookup id (sessionStore (elapse dt s)) = Some x).
  { rewrite E. cbn. now rewrite String.eqb_refl. }
  unfold elapse, fire_due in G. cbn [sessionStore] in G.
  apply lookup_fold_delete_some in G. destruct G as [G ND].
  destruct (I id x G) as (d & P & _ & B).
  destruct (ND d). apply filter_In. split; [exact P |].
  unfold is_due. cbn. apply N.leb_le. lia.
Qed.

Lemma stored_well_formed (body : value) (url uuid : string) (s : server) :
  valid_request body = true ->
  get_opt body "serverUrl" = VStr url ->
  store_well_formed s -> store_well_formed (stored body url uuid s).
Proof.
  intros V U I id x G. unfold stored in G. cbn [sessionStore] in G.
  destruct (string_dec uuid id) as [-> | NE].
  - rewrite lookup_Map_set_same in G. injection G as <-.
    destruct (valid_request_inv _ V) as (props & url0 & -> & U0 & N & T1 & T2 & _ & T4 & T5 & _).
    rewrite U in U0. injection U0 as <-.
    unfold session_well_formed, session_of.
    cbn [twilioAccountSid twilioAuthToken elevenLabsApiKey elevenLabsAgentId serverUrl].
    repeat (split; [assumption |]).
    exists (normalized url). split; [reflexivity |].
    apply String.eqb_neq. now apply normalized_not_empty.
  - rewrite lookup_Map_set_other in G by exact NE. exact (I id x G).
Qed.

Lemma serve_well_formed (r : request) (s : server) :
  store_well_formed s -> store_well_formed (serve Twilio_new s r).
Proof.
  intros I. destruct r as [body uuid|sessionId created|body|sessionId|body|sessionId|dt];
    cbn [serve].
  - rewrite initiate_call_state. destruct (valid_request body) eqn:V; [| exact I].
    destruct (get_opt body "serverUrl") as [| | | |url| |] eqn:U; try exact I.
    now apply stored_well_formed.
  - now rewrite initiate_call_resume_state.
  - now rewrite hangup_call_state.
  - now rewrite call_twiml_state.
  - now rewrite call_status_state.
  - now rewrite media_stream_state.
  - intros id x G. unfold elapse, fire_due in G. cbn [sessionStore] in G.
    apply lookup_fold_delete_some in G. exact (I id x (proj1 G)).
Qed.

Lemma reachable_well_formed (rs : list request) :
  store_well_formed (serve_all Twilio_new server_init rs).
Proof.
  assert (G : forall s, store_well_formed s ->
                        store_well_formed (serve_all Twilio_new s rs)).
  { induction rs as [|r rs IH]; intros s I; [exact I |].
    apply (IH (serve Twilio_new s r)). now apply serve_well_formed. }
  apply G. intros id x L. discriminate L.
Qed.

(** X21: in every state the process can reach from an empty registry,
    [POST /call/twiml] does not throw and logs nothing but a miss: it
    answers 200 with an instruction document when the registry holds the
    identifier and 404 when it does not, and every session it can find has
    truthy credentials and a non-empty string for its callback address. *)
Theorem call_twiml_total_on_reachable (rs : list request) (sessionId : value) :
  let s := serve_all Twilio_new server_init rs in
  (forall x, Map_get (sessionStore s) sessionId = Some x ->
     session_well_formed x
     /\ exists base,
          call_twiml sessionId s
          = (Ok (mkReply 200
                   (Twiml (base ++ "/media-stream?sessionId=" ++ to_string sessionId))),
             s, []))
  /\ (Map_get (sessionStore s) sessionId = None ->
      call_twiml sessionId s
      = (Ok (mkReply 404 (Text "Session not found")), s,
         [Log Error ("Session not found for TwiML: " ++ to_string sessionId)])).
Proof.
  intros s. split.
  - intros x G.
    assert (W : session_well_formed x).
    { destruct sessionId; try discriminate G.
      exact (reachable_well_formed rs _ x G). }
    split; [exact W |].
    destruct W as (_ & _ & _ & _ & url & U & _).
    unfold call_twiml, bind, get_state, lift. rewrite G, U. cbn [replace_https_wss].
    eexists. reflexivity.
  - intros G. unfold call_twiml, bind, get_state. rewrite G. reflexivity.
Qed.
End RegistryOverTime.

(** Another session is created and the first one is looked up. *)
Lemma session_untouched_by_other_requests_witness :
  Map_get (sessionStore (serve Twilio_accepts server_6f1c (InitiateCall body_other "9a2e")))
          (VStr "6f1c")
  = Map_get (sessionStore server_6f1c) (VStr "6f1c").
Proof.
  apply (session_untouched_by_other_requests Twilio_accepts "6f1c"
           (InitiateCall body_other "9a2e") server_6f1c eq_refl).
  intros dt. discriminate.
Defined.

(** One millisecond before the hour, and the hour itself. *)
Lemma session_lifetime_is_exactly_one_hour_witness :
  Map_get (sessionStore (serve_all Twilio_accepts server_6f1c
                           [Elapse 3599999; CallTwiml (VStr "6f1c")]))
          (VStr "6f1c") <> None
  /\ Map_get (sessionStore (serve_all Twilio_accepts server_6f1c
                              [Elapse 3599999; CallTwiml (VStr "6f1c"); Elapse 1]))
             (VStr "6f1c") = None.
Proof.
  split.
  - refine (proj2 (proj1 (session_lifetime_is_exactly_one_hour Twilio_accepts
              (body_with "bridge.example.com" VUndefined VUndefined) "6f1c" server_init
              [Elapse 3599999; CallTwiml (VStr "6f1c")] eq_refl eq_refl eq_refl) _)).
    reflexivity.
  - refine (proj2 (session_lifetime_is_exactly_one_hour Twilio_accepts
              (body_with "bridge.example.com" VUndefined VUndefined) "6f1c" server_init
              [Elapse 3599999; CallTwiml (VStr "6f1c"); Elapse 1]
              eq_refl eq_refl eq_refl) _).
    cbn. lia.
Defined.

(** Two sessions created half an hour apart, then one hour of silence. *)
Lemma idle_hour_empties_registry_witness :
  sessionStore (elapse 3600000
                  (serve_all Twilio_accepts server_init
                     [InitiateCall (body_with "bridge.example.com" VUndefined VUndefined)
                                   "6f1c";
                      Elapse 1800000; InitiateCall body_other "9a2e"])) = [].
Proof.
  apply (idle_hour_empties_registry Twilio_accepts
           [InitiateCall (body_with "bridge.example.com" VUndefined VUndefined) "6f1c";
            Elapse 1800000; InitiateCall body_other "9a2e"] 3600000).
  lia.
Defined.

(** The one session of the examples, and its pending deletion. *)
Lemma every_session_has_pending_expiry_witness :
  exists d,
    In (d, "6f1c") (timers (serve_all Twilio_accepts server_init
                              [InitiateCall (body_with "bridge.example.com"
                                                       VUndefined VUndefined) "6f1c";
                               Elapse 1800000]))
    /\ (1800000 < d)%N /\ (d <= 1800000 + 3600000)%N.
Proof.
  exact (every_session_has_pending_expiry Twilio_accepts
           [InitiateCall (body_with "bridge.example.com" VUndefined VUndefined) "6f1c";
            Elapse 1800000] "6f1c" _ eq_refl).
Defined.

(** A hit and a miss on the registry of the examples. *)
Lemma call_twiml_total_on_reachable_witness :
  (exists base,
     call_twiml (VStr "6f1c")
                (serve_all Twilio_accepts server_init
                   [InitiateCall (body_with "bridge.example.com" VUndefined VUndefined)
                                 "6f1c"])
     = (Ok (mkReply 200 (Twiml (base ++ "/media-stream?sessionId=" ++ "6f1c"))),
        serve_all Twilio_accepts server_init
          [InitiateCall (body_with "bridge.example.com" VUndefined VUndefined) "6f1c"],
        []))
  /\ call_twiml (VStr "9a2e") server_init
     = (Ok (mkReply 404 (Text "Session not found")), server_init,
        [Log Error "Session not found for TwiML: 9a2e"]).
Proof.
  split.
  - exact (proj2 (proj1 (call_twiml_total_on_reachable Twilio_accepts
                           [InitiateCall (body_with "bridge.example.com"
                                                    VUndefined VUndefined) "6f1c"]
                           (VStr "6f1c")) _ eq_refl)).
  - exact (proj2 (call_twiml_total_on_reachable Twilio_accepts [] (VStr "9a2e")) eq_refl).
Defined.
